(** * Sketch comparison classes of sourmash ([sourmash/sketchcomparison.py])

    A shallow embedding of [BaseMinHashComparison], [NumMinHashComparison]
    and [FracMinHashComparison], and the properties of their construction
    protocol and derived statistics.

    The comparison classes are Python dataclasses whose [__post_init__]
    mutates [self] and may raise.  Methods are therefore embedded in a
    state-and-exception monad over the object: an assignment made before a
    [raise] stays visible in the final state, as in Python.  The monad also
    records, in order, the calls made to the sketch engine.

    The sketch engine ([MinHash], in [sourmash/minhash.py]) is a
    collaborator of these classes; the module [MinHash] below models the
    part of its contract that the comparison classes call. *)

From stdpp Require Import gmap strings list fin_maps sorting.
From Stdlib Require Import ZArith QArith Lia.

Local Open Scope N_scope.

(** ** Python exceptions and results *)

Inductive exn : Type :=
  | ValueError (msg : string)
  | TypeError (msg : string)
  | RuntimeError (msg : string)
  | AttributeError (attr : string).

Inductive result (A : Type) : Type :=
  | Ok (a : A)
  | Raise (e : exn).
Arguments Ok {A} a.
Arguments Raise {A} e.

Definition is_ok {A} (r : result A) : bool :=
  match r with Ok _ => true | Raise _ => false end.

Definition result_bind {A B} (r : result A) (k : A → result B) : result B :=
  match r with Ok a => k a | Raise e => Raise e end.

#[global] Instance result_ret : MRet result := @Ok.
#[global] Instance result_mbind : MBind result :=
  λ A B k r, result_bind r k.

(** Python truthiness of an integer. *)
Definition truthy (n : N) : bool := negb (n =? 0).

(** ** The sketch engine *)

Module MinHash.

(** Modelled from the spec: the [MinHash] class of [sourmash/minhash.py],
    imported by [sketchcomparison.py] and not embedded from code.  A sketch carries its kind
    ([num] for a fixed-size sketch, [scaled] for a fixed-rate one, the
    other being 0), its identity metadata, the abundance mode, and its
    hashes with the multiplicity stored for each. Sample counts, rates and
    hashes are unsigned machine integers in the engine. *)
Record t : Type := Build {
  num : N;
  scaled : N;
  ksize : N;
  moltype : string;
  track_abundance : bool;
  store : gmap N N
}.

(** Modelled from the spec: the [hashes] attribute, the mapping from
    hash to abundance; a sketch that does not track abundance reports
    1 for each of its hashes. *)
Definition hashes (m : t) : gmap N N :=
  if track_abundance m then store m else (λ _, 1) <$> store m.

(** Modelled from the spec: [len(mh)], the number of hashes held. *)
Definition len (m : t) : N := N.of_nat (size (store m)).

(** Modelled from the spec: [flatten() → Sketch], "abundance stripped,
    structural copy". *)
Definition flatten (m : t) : t :=
  {| num := num m; scaled := scaled m; ksize := ksize m;
     moltype := moltype m; track_abundance := false;
     store := (λ _, 1) <$> store m |}.

(** Modelled from the spec: the largest hash a fixed-rate sketch of rate
    [s] retains ("subsampling rate": one hash value in [s] is kept). *)
Definition max_hash_for_scaled (s : N) : N :=
  if s =? 0 then 0 else N.min (2 ^ 64 / s) (2 ^ 64 - 1).

(** Modelled from the spec: the [n] smallest hashes of a sketch, what a
    fixed-size sketch of sample count [n] retains. *)
Definition smallest (n : N) (st : gmap N N) : list N :=
  take (N.to_nat n) (merge_sort N.le (elements (dom st))).

(** Modelled from the spec: a copy of [m] with another resolution and
    other hashes; metadata and abundance mode as in [m]. *)
Definition with_resolution (m : t) (n s : N) (st : gmap N N) : t :=
  {| num := n; scaled := s; ksize := ksize m; moltype := moltype m;
     track_abundance := track_abundance m; store := st |}.

(** Modelled from the spec: [downsample(rate?|sample_count?) → Sketch],
    "exactly one selector, coarsening-only is assumed valid, fails if
    requested resolution is finer than representable".  The selector has
    to be the one of the sketch's own kind; the abundance mode and the
    identity metadata are kept. *)
Definition downsample (m : t) (num_arg scaled_arg : option N) : result t :=
  match num_arg, scaled_arg with
  | None, None =>
      Raise (ValueError "must specify either num or scaled to downsample")
  | Some _, Some _ => Raise (ValueError "cannot specify both num and scaled")
  | Some n, None =>
      if truthy (scaled m) then
        Raise (ValueError "cannot downsample a scaled MinHash using num")
      else if num m <? n then
        Raise (ValueError "new sample num is higher than current sample num")
      else
        let keep := smallest n (store m) in
        Ok (with_resolution m n 0
              (filter (λ kv, bool_decide (kv.1 ∈ keep)) (store m)))
  | None, Some s =>
      if truthy (num m) then
        Raise (ValueError "cannot downsample a num MinHash using scaled")
      else if s <? scaled m then
        Raise (ValueError "new scaled is lower than current sample scaled")
      else
        let mx := max_hash_for_scaled s in
        Ok (with_resolution m 0 s
              (filter (λ kv, bool_decide (kv.1 ≤ mx)) (store m)))
  end.

(** Modelled from the spec: [is_compatible(other) → bool], the "k-mer
    size, molecule type, resolution equality check".  By the comment in
    [check_compatibility_and_downsample] the resolution compared is
    [scaled]; [num] is not looked at. *)
Definition is_compatible (a b : t) : bool :=
  (ksize a =? ksize b) && bool_decide (moltype a = moltype b)
  && (scaled a =? scaled b).

(** Modelled from the spec: [intersection(other) → Sketch], the hashes
    held by both, with the parameters of the receiver. *)
Definition intersection (a b : t) : t :=
  with_resolution a (num a) (scaled a) (store a ∩ store b).

(** Modelled from the spec: [copy_and_clear() → Sketch], same parameters,
    no hashes. *)
Definition copy_and_clear (m : t) : t :=
  with_resolution m (num m) (scaled m) ∅.

(** Modelled from the spec: assignment to the [track_abundance]
    attribute.  Abundance tracking can be switched on only while the
    sketch is empty; switching it off forgets the multiplicities. *)
Definition set_track_abundance (m : t) (b : bool) : result t :=
  if eqb (track_abundance m) b then Ok m
  else if negb b then Ok (flatten m)
  else if bool_decide (store m = ∅) then
    Ok {| num := num m; scaled := scaled m; ksize := ksize m;
          moltype := moltype m; track_abundance := true;
          store := store m |}
  else
    Raise (RuntimeError
             "Can only set track_abundance=True if the MinHash is empty").

(** Modelled from the spec: [set_abundances(mapping)], which replaces
    the hashes of an abundance-tracking sketch by the given mapping. *)
Definition set_abundances (m : t) (abunds : gmap N N) : result t :=
  if track_abundance m then
    Ok (with_resolution m (num m) (scaled m) abunds)
  else
    Raise (RuntimeError
             "Use track_abundance=True when constructing the MinHash to use set_abundances.").

End MinHash.

(** ** Numeric estimators of the engine

    The statistics themselves are floating-point computations of the engine
    ([jaccard], [contained_by], the ANI estimates, [angular_similarity]).
    They are taken as parameters; floats are read as rationals. *)

Record ANIResult : Type := {
  ani : Q;
  ani_low : option Q;
  ani_high : option Q
}.

Class Estimators : Type := {
  jaccard_value : MinHash.t → MinHash.t → Q;
  jaccard_ani_value : MinHash.t → MinHash.t → ANIResult;
  contained_by_value : MinHash.t → MinHash.t → Q;
  containment_ani_value : MinHash.t → MinHash.t → Q → bool → ANIResult;
  max_containment_value : MinHash.t → MinHash.t → Q;
  max_containment_ani_value : MinHash.t → MinHash.t → Q → bool → ANIResult;
  angular_value : MinHash.t → MinHash.t → Q
}.

(** Modelled from the spec: [angular_similarity(other) → float], which
    "fails if either side lacks abundance"; the comment in the [angular_similarity]
    property of the comparison names the exception, [TypeError]. *)
Definition msg_requires_abundance : string :=
  "Error: Angular (cosine) similarity requires both sketches to track hash abundance.".

Definition MinHash_angular_similarity `{Estimators} (a b : MinHash.t)
  : result Q :=
  if MinHash.track_abundance a && MinHash.track_abundance b then
    Ok (angular_value a b)
  else
    Raise (TypeError msg_requires_abundance).



(** [numpy.mean] of a list of numbers. *)
Definition np_mean (l : list Q) : Q :=
  (foldr Qplus 0 l / inject_Z (Z.of_nat (length l)))%Q.

(** ** Methods: state, exceptions and the engine calls made *)

Inductive EngineCall : Type :=
  | CallFlatten (m : MinHash.t)
  | CallDownsample (m : MinHash.t) (num_arg scaled_arg : option N)
  | CallIsCompatible (a b : MinHash.t).

Definition Method (S A : Type) : Type :=
  S * list EngineCall → result A * (S * list EngineCall).

Definition ret_m {S A} (a : A) : Method S A := λ w, (Ok a, w).

Definition bind_m {S A B} (m : Method S A) (k : A → Method S B)
  : Method S B :=
  λ w, match m w with
       | (Ok a, w') => k a w'
       | (Raise e, w') => (Raise e, w')
       end.

#[global] Instance method_ret S : MRet (Method S) := @ret_m S.
#[global] Instance method_mbind S : MBind (Method S) :=
  λ A B k m, bind_m m k.

Definition raise {S A} (e : exn) : Method S A := λ w, (Raise e, w).

(** Reading an attribute that is always present. *)
Definition get {S A} (f : S → A) : Method S A := λ w, (Ok (f w.1), w).

(** Reading an attribute that is set only by a method: unset, the read
    raises [AttributeError]. *)
Definition attr {S A} (name : string) (f : S → option A) : Method S A :=
  λ w, match f w.1 with
       | Some a => (Ok a, w)
       | None => (Raise (AttributeError name), w)
       end.

(** Assignment to attributes of [self]. *)
Definition put {S} (upd : S → S) : Method S unit :=
  λ w, (Ok (), (upd w.1, w.2)).

(** A call to the engine: recorded, then its result or exception. *)
Definition call {S A} (c : EngineCall) (r : result A) : Method S A :=
  λ w, (r, (w.1, w.2 ++ [c])).

(** A method of a base class run on an object of a subclass. *)
Definition on_base {S B A} (proj : S → B) (inj : B → S → S)
    (m : Method B A) : Method S A :=
  λ w, let '(r, (b, tr)) := m (proj w.1, w.2) in (r, (inj b w.1, tr)).

(** Python's [a and b] and [any] on integers. *)
Definition py_and (a b : N) : N := if truthy a then b else a.
Definition any (l : list N) : bool := existsb truthy l.

(** ** BaseMinHashComparison *)

Record BaseMinHashComparison : Type := {
  mh1 : MinHash.t;
  mh2 : MinHash.t;
  ignore_abundance : bool;
  (* attributes assigned by the methods *)
  mh1_cmp : option MinHash.t;
  mh2_cmp : option MinHash.t;
  ksize : option N;
  moltype : option string
}.

Definition set_mh1_cmp (v : MinHash.t) (self : BaseMinHashComparison) :=
  {| mh1 := mh1 self; mh2 := mh2 self;
     ignore_abundance := ignore_abundance self;
     mh1_cmp := Some v; mh2_cmp := mh2_cmp self;
     ksize := ksize self; moltype := moltype self |}.

Definition set_mh2_cmp (v : MinHash.t) (self : BaseMinHashComparison) :=
  {| mh1 := mh1 self; mh2 := mh2 self;
     ignore_abundance := ignore_abundance self;
     mh1_cmp := mh1_cmp self; mh2_cmp := Some v;
     ksize := ksize self; moltype := moltype self |}.

Definition set_ksize (v : N) (self : BaseMinHashComparison) :=
  {| mh1 := mh1 self; mh2 := mh2 self;
     ignore_abundance := ignore_abundance self;
     mh1_cmp := mh1_cmp self; mh2_cmp := mh2_cmp self;
     ksize := Some v; moltype := moltype self |}.

Definition set_moltype (v : string) (self : BaseMinHashComparison) :=
  {| mh1 := mh1 self; mh2 := mh2 self;
     ignore_abundance := ignore_abundance self;
     mh1_cmp := mh1_cmp self; mh2_cmp := mh2_cmp self;
     ksize := ksize self; moltype := Some v |}.

Definition flatten_call {S} (m : MinHash.t) : Method S MinHash.t :=
  call (CallFlatten m) (Ok (MinHash.flatten m)).

Definition downsample_call {S} (m : MinHash.t) (num_arg scaled_arg : option N)
  : Method S MinHash.t :=
  call (CallDownsample m num_arg scaled_arg)
       (MinHash.downsample m num_arg scaled_arg).

Definition is_compatible_call {S} (a b : MinHash.t) : Method S bool :=
  call (CallIsCompatible a b) (Ok (MinHash.is_compatible a b)).

Definition msg_no_resolution : string :=
  "Error: must pass in a comparison scaled or num value.".
Definition msg_kind_mismatch : string :=
  "Error: Both sketches must be 'num' or 'scaled'.".
Definition msg_incompatible : string :=
  "Error: Cannot compare incompatible sketches.".

Definition downsample_and_handle_ignore_abundance
    (cmp_num cmp_scaled : option N) : Method BaseMinHashComparison unit :=
  ia ← get ignore_abundance;
  (if ia : bool then
     m1 ← get mh1; f1 ← flatten_call m1; put (set_mh1_cmp f1);;
     m2 ← get mh2; f2 ← flatten_call m2; put (set_mh2_cmp f2)
   else
     m1 ← get mh1; put (set_mh1_cmp m1);;
     m2 ← get mh2; put (set_mh2_cmp m2));;
  match cmp_scaled, cmp_num with
  | Some s, _ =>
      c1 ← attr "mh1_cmp" mh1_cmp;
      d1 ← downsample_call c1 None (Some s); put (set_mh1_cmp d1);;
      c2 ← attr "mh2_cmp" mh2_cmp;
      d2 ← downsample_call c2 None (Some s); put (set_mh2_cmp d2)
  | None, Some n =>
      c1 ← attr "mh1_cmp" mh1_cmp;
      d1 ← downsample_call c1 (Some n) None; put (set_mh1_cmp d1);;
      c2 ← attr "mh2_cmp" mh2_cmp;
      d2 ← downsample_call c2 (Some n) None; put (set_mh2_cmp d2)
  | None, None => raise (ValueError msg_no_resolution)
  end.

Definition check_compatibility_and_downsample
    (cmp_num cmp_scaled : option N) : Method BaseMinHashComparison unit :=
  m1 ← get mh1; m2 ← get mh2;
  if negb (any [py_and (MinHash.num m1) (MinHash.num m2);
                py_and (MinHash.scaled m1) (MinHash.scaled m2)])
  then raise (TypeError msg_kind_mismatch)
  else
    (* need to downsample first because is_compatible checks scaled *)
    downsample_and_handle_ignore_abundance cmp_num cmp_scaled;;
    c1 ← attr "mh1_cmp" mh1_cmp; c2 ← attr "mh2_cmp" mh2_cmp;
    compatible ← is_compatible_call c1 c2;
    if negb compatible then raise (TypeError msg_incompatible)
    else
      m1 ← get mh1; put (set_ksize (MinHash.ksize m1));;
      m1 ← get mh1; put (set_moltype (MinHash.moltype m1)).

(** A freshly initialised object: the dataclass fields are set, the
    attributes assigned by the methods are not. *)
Definition BaseMinHashComparison_fields (m1 m2 : MinHash.t) (ia : bool)
  : BaseMinHashComparison :=
  {| mh1 := m1; mh2 := m2; ignore_abundance := ia;
     mh1_cmp := None; mh2_cmp := None; ksize := None; moltype := None |}.

(** Properties read [self] and do not assign to it; they are functions of
    the object that may raise. *)
Definition attr_of {A} (name : string) (o : option A) : result A :=
  match o with Some a => Ok a | None => Raise (AttributeError name) end.

Definition intersect_mh (self : BaseMinHashComparison) : result MinHash.t :=
  c1 ← attr_of "mh1_cmp" (mh1_cmp self);
  c2 ← attr_of "mh2_cmp" (mh2_cmp self);
  (* flatten and intersect *)
  Ok (MinHash.intersection (MinHash.flatten c1) (MinHash.flatten c2)).

Section BaseProperties.
Context `{Estimators}.



Definition angular_similarity (self : BaseMinHashComparison) : result Q :=
  c1 ← attr_of "mh1_cmp" (mh1_cmp self);
  c2 ← attr_of "mh2_cmp" (mh2_cmp self);
  MinHash_angular_similarity c1 c2.

Definition cosine_similarity (self : BaseMinHashComparison) : result Q :=
  angular_similarity self.
End BaseProperties.

(** ** NumMinHashComparison *)

Record NumMinHashComparison : Type := {
  num_base :> BaseMinHashComparison;
  cmp_num : option N
}.

Definition set_num_base (b : BaseMinHashComparison)
    (self : NumMinHashComparison) : NumMinHashComparison :=
  {| num_base := b; cmp_num := cmp_num self |}.

Definition set_cmp_num (v : N) (self : NumMinHashComparison)
  : NumMinHashComparison :=
  {| num_base := num_base self; cmp_num := Some v |}.

Definition NumMinHashComparison_post_init : Method NumMinHashComparison unit :=
  cn ← get cmp_num;
  (if cn is None then
     (* record the num we're doing this comparison on *)
     m1 ← get (λ self : NumMinHashComparison, mh1 self);
     m2 ← get (λ self : NumMinHashComparison, mh2 self);
     put (set_cmp_num (N.min (MinHash.num m1) (MinHash.num m2)))
   else mret ());;
  cn ← get cmp_num;
  on_base num_base set_num_base (check_compatibility_and_downsample cn None).

(** The dataclass constructor: the generated [__init__] stores the
    fields and runs [__post_init__].  [NumMinHashComparison_init] gives the
    outcome together with the final state of the object and the engine
    calls made; [NumMinHashComparison_new] is what the caller gets. *)
Definition NumMinHashComparison_init (m1 m2 : MinHash.t) (ia : bool)
    (cn : option N)
  : result unit * (NumMinHashComparison * list EngineCall) :=
  NumMinHashComparison_post_init
    ({| num_base := BaseMinHashComparison_fields m1 m2 ia; cmp_num := cn |},
     []).

Definition NumMinHashComparison_new (m1 m2 : MinHash.t) (ia : bool)
    (cn : option N) : result NumMinHashComparison :=
  match NumMinHashComparison_init m1 m2 ia cn with
  | (Ok _, (self, _)) => Ok self
  | (Raise e, _) => Raise e
  end.

(** ** FracMinHashComparison *)

Record FracMinHashComparison : Type := {
  frac_base :> BaseMinHashComparison;
  cmp_scaled : option N;
  threshold_bp : Z;
  estimate_ani_ci : bool;
  ani_confidence : Q
}.

Definition set_frac_base (b : BaseMinHashComparison)
    (self : FracMinHashComparison) : FracMinHashComparison :=
  {| frac_base := b; cmp_scaled := cmp_scaled self;
     threshold_bp := threshold_bp self;
     estimate_ani_ci := estimate_ani_ci self;
     ani_confidence := ani_confidence self |}.

Definition set_cmp_scaled (v : N) (self : FracMinHashComparison)
  : FracMinHashComparison :=
  {| frac_base := frac_base self; cmp_scaled := Some v;
     threshold_bp := threshold_bp self;
     estimate_ani_ci := estimate_ani_ci self;
     ani_confidence := ani_confidence self |}.

Definition FracMinHashComparison_post_init
  : Method FracMinHashComparison unit :=
  cs ← get cmp_scaled;
  (if cs is None then
     (* comparison scaled defaults to maximum scaled between the two sigs *)
     m1 ← get (λ self : FracMinHashComparison, mh1 self);
     m2 ← get (λ self : FracMinHashComparison, mh2 self);
     put (set_cmp_scaled (N.max (MinHash.scaled m1) (MinHash.scaled m2)))
   else mret ());;
  cs ← get cmp_scaled;
  on_base frac_base set_frac_base (check_compatibility_and_downsample None cs).

Definition FracMinHashComparison_init (m1 m2 : MinHash.t) (ia : bool)
    (cs : option N) (thr : Z) (ci : bool) (conf : Q)
  : result unit * (FracMinHashComparison * list EngineCall) :=
  FracMinHashComparison_post_init
    ({| frac_base := BaseMinHashComparison_fields m1 m2 ia; cmp_scaled := cs;
        threshold_bp := thr; estimate_ani_ci := ci; ani_confidence := conf |},
     []).

Definition FracMinHashComparison_new (m1 m2 : MinHash.t) (ia : bool)
    (cs : option N) (thr : Z) (ci : bool) (conf : Q)
  : result FracMinHashComparison :=
  match FracMinHashComparison_init m1 m2 ia cs thr ci conf with
  | (Ok _, (self, _)) => Ok self
  | (Raise e, _) => Raise e
  end.

Definition intersect_bp (self : FracMinHashComparison) : result Z :=
  im ← intersect_mh self;
  cs ← attr_of "cmp_scaled" (cmp_scaled self);
  Ok (Z.of_N (MinHash.len im) * Z.of_N cs)%Z.

Definition pass_threshold (self : FracMinHashComparison) : result bool :=
  bp ← intersect_bp self;
  Ok (bp >=? threshold_bp self)%Z.

Section FracProperties.
Context `{Estimators}.

Definition mh1_containment (self : FracMinHashComparison) : result Q :=
  c1 ← attr_of "mh1_cmp" (mh1_cmp self);
  c2 ← attr_of "mh2_cmp" (mh2_cmp self);
  Ok (contained_by_value c1 c2).

Definition mh1_containment_ani (self : FracMinHashComparison)
  : result ANIResult :=
  c1 ← attr_of "mh1_cmp" (mh1_cmp self);
  c2 ← attr_of "mh2_cmp" (mh2_cmp self);
  Ok (containment_ani_value c1 c2 (ani_confidence self)
                            (estimate_ani_ci self)).

Definition mh2_containment (self : FracMinHashComparison) : result Q :=
  c2 ← attr_of "mh2_cmp" (mh2_cmp self);
  c1 ← attr_of "mh1_cmp" (mh1_cmp self);
  Ok (contained_by_value c2 c1).

Definition mh2_containment_ani (self : FracMinHashComparison)
  : result ANIResult :=
  c2 ← attr_of "mh2_cmp" (mh2_cmp self);
  c1 ← attr_of "mh1_cmp" (mh1_cmp self);
  Ok (containment_ani_value c2 c1 (ani_confidence self)
                            (estimate_ani_ci self)).


Definition max_containment_ani (self : FracMinHashComparison)
  : result ANIResult :=
  c1 ← attr_of "mh1_cmp" (mh1_cmp self);
  c2 ← attr_of "mh2_cmp" (mh2_cmp self);
  Ok (max_containment_ani_value c1 c2 (ani_confidence self)
                                (estimate_ani_ci self)).

Definition avg_containment (self : FracMinHashComparison) : result Q :=
  a ← mh1_containment self;
  b ← mh2_containment self;
  Ok (np_mean [a; b]).

Definition avg_containment_ani (self : FracMinHashComparison) : result Q :=
  a ← mh1_containment_ani self;
  b ← mh2_containment_ani self;
  Ok (np_mean [ani a; ani b]).
End FracProperties.

(** [from_abundD] defaults to the empty dict, so "not passed" and "passed
    empty" are the same argument. *)
Definition weighted_intersection (self : FracMinHashComparison)
    (from_mh : option MinHash.t) (from_abundD : gmap N N)
  : result MinHash.t :=
  (* map abundances to all intersection hashes. *)
  im ← intersect_mh self;
  abund_mh ← MinHash.set_track_abundance (MinHash.copy_and_clear im) true;
  (* if from_mh is provided, it takes precedence over from_abund dict *)
  let from_abundD :=
    match from_mh with
    | Some m => if MinHash.track_abundance m then MinHash.hashes m
                else from_abundD
    | None => from_abundD
    end in
  if negb (bool_decide (from_abundD = ∅)) then
    (* this sets any hash not present in abundD to 1. *)
    im' ← intersect_mh self;
    let abunds :=
      map_imap (λ k _, Some (default 1 (from_abundD !! k)))
               (MinHash.hashes im') in
    MinHash.set_abundances abund_mh abunds
  else
    (* if no abundances are passed in, return intersect_mh *)
    intersect_mh self.

(** The sketch handed to the downsampling step. *)
Definition prepared (ia : bool) (m : MinHash.t) : MinHash.t :=
  if ia then MinHash.flatten m else m.

(** The keyword arguments of the two [downsample] calls. *)
Definition selector (cmp_num cmp_scaled : option N)
  : option (option N * option N) :=
  match cmp_scaled, cmp_num with
  | Some s, _ => Some (None, Some s)
  | None, Some n => Some (Some n, None)
  | None, None => None
  end.

Definition flatten_calls (ia : bool) (m1 m2 : MinHash.t) : list EngineCall :=
  if ia then [CallFlatten m1; CallFlatten m2] else [].

Definition kinds_agree (m1 m2 : MinHash.t) : bool :=
  any [py_and (MinHash.num m1) (MinHash.num m2);
       py_and (MinHash.scaled m1) (MinHash.scaled m2)].

(** The object once [mh1_cmp] and [mh2_cmp] have been assigned. *)
Definition normalized (b : BaseMinHashComparison) (d1 d2 : MinHash.t)
  : BaseMinHashComparison :=
  set_mh2_cmp d2 (set_mh1_cmp d1 b).

(** The object at the end of a successful
    [check_compatibility_and_downsample]. *)
Definition validated (b : BaseMinHashComparison) (d1 d2 : MinHash.t)
  : BaseMinHashComparison :=
  set_moltype (MinHash.moltype (mh1 b))
    (set_ksize (MinHash.ksize (mh1 b)) (normalized b d1 d2)).

(** ** The two constructors *)

(** The resolution a constructor settles on: the override if there is
    one, the default of the variant otherwise. *)
Definition resolved_num (m1 m2 : MinHash.t) (cn : option N) : N :=
  match cn with
  | Some n => n
  | None => N.min (MinHash.num m1) (MinHash.num m2)
  end.

Definition resolved_scaled (m1 m2 : MinHash.t) (cs : option N) : N :=
  match cs with
  | Some s => s
  | None => N.max (MinHash.scaled m1) (MinHash.scaled m2)
  end.

(** Comparison objects a caller can hold: those one of the two
    constructors returned. *)
Inductive constructed : BaseMinHashComparison → Prop :=
  | constructed_num m1 m2 ia cn (self : NumMinHashComparison) :
      NumMinHashComparison_new m1 m2 ia cn = Ok self →
      constructed self
  | constructed_frac m1 m2 ia cs thr ci conf (self : FracMinHashComparison) :
      FracMinHashComparison_new m1 m2 ia cs thr ci conf = Ok self →
      constructed self.

(** ** Sketches used in the examples *)

Definition sketch (n s k : N) (ab : bool) (st : gmap N N) : MinHash.t :=
  MinHash.Build n s k "DNA" ab st.

Definition rate10 : MinHash.t :=
  sketch 0 10 21 true {[ 5 := 3; 7 := 2; 100 := 4 ]}.
Definition rate20 : MinHash.t :=
  sketch 0 20 21 false {[ 5 := 1; 9 := 1; 100 := 1 ]}.
Definition rate10_k31 : MinHash.t :=
  sketch 0 10 31 false {[ 5 := 1; 9 := 1 ]}.
Definition size500 : MinHash.t :=
  sketch 500 0 21 false {[ 5 := 1; 9 := 1; 100 := 1 ]}.
Definition size2 : MinHash.t :=
  sketch 2 0 21 true {[ 5 := 6; 7 := 1; 9 := 2 ]}.
Definition empty_abund : MinHash.t := sketch 0 10 21 true ∅.

(** ** Kinds *)

Definition fixed_size (m : MinHash.t) : Prop :=
  MinHash.num m ≠ 0 ∧ MinHash.scaled m = 0.
Definition fixed_rate (m : MinHash.t) : Prop :=
  MinHash.scaled m ≠ 0 ∧ MinHash.num m = 0.
Definition mixed_kinds (m1 m2 : MinHash.t) : Prop :=
  (fixed_size m1 ∧ fixed_rate m2) ∨ (fixed_rate m1 ∧ fixed_size m2).

(** ** The resolution arguments of the normalisation *)

Definition supplied (cmp_num cmp_scaled : option N) : nat :=
  (if cmp_num is Some _ then 1 else 0) + (if cmp_scaled is Some _ then 1 else 0).

(** "Exactly one resolution must be supplied": the normalisation goes
    through only for calls that supply exactly one. *)
Definition exactly_one_enforced (w : BaseMinHashComparison * list EngineCall)
    (cmp_num cmp_scaled : option N) : Prop :=
  is_ok (downsample_and_handle_ignore_abundance cmp_num cmp_scaled w).1 = true →
  supplied cmp_num cmp_scaled = 1%nat.

(** An instance of the estimators for the examples: the set statistics as
    exact ratios of hash counts, the ANI point estimates stood in for by
    the same ratios. *)
Definition ratio (a b : N) : Q :=
  (inject_Z (Z.of_N a) / inject_Z (Z.of_N b))%Q.

Definition shared (a b : MinHash.t) : N :=
  MinHash.len (MinHash.intersection (MinHash.flatten a) (MinHash.flatten b)).

Definition estimate (ci : bool) (c : Q) : ANIResult :=
  {| ani := c;
     ani_low := if ci then Some c else None;
     ani_high := if ci then Some c else None |}.

Definition counting_estimators : Estimators :=
  {| jaccard_value a b :=
       ratio (shared a b) (MinHash.len a + MinHash.len b - shared a b);
     jaccard_ani_value a b :=
       estimate false
         (ratio (shared a b) (MinHash.len a + MinHash.len b - shared a b));
     contained_by_value a b := ratio (shared a b) (MinHash.len a);
     containment_ani_value a b _ ci :=
       estimate ci (ratio (shared a b) (MinHash.len a));
     max_containment_value a b :=
       ratio (shared a b) (N.min (MinHash.len a) (MinHash.len b));
     max_containment_ani_value a b _ ci :=
       estimate ci (ratio (shared a b) (N.min (MinHash.len a) (MinHash.len b)));
     angular_value a b :=
       ratio (shared a b) (MinHash.len a + MinHash.len b - shared a b) |}.

(** ** Weighted intersection *)

(** The mapping the abundances are read from: [from_abundD] as rebound by
    the method before it is tested. *)
Definition chosen_source (from_mh : option MinHash.t) (from_abundD : gmap N N)
  : gmap N N :=
  match from_mh with
  | Some m => if MinHash.track_abundance m then MinHash.hashes m
              else from_abundD
  | None => from_abundD
  end.

(** The intersection sketch with abundance tracking on, each of its hashes
    carrying the abundance found in [src], or 1 if [src] does not have
    it. *)
Definition tagged (im : MinHash.t) (src : gmap N N) : MinHash.t :=
  {| MinHash.num := MinHash.num im; MinHash.scaled := MinHash.scaled im;
     MinHash.ksize := MinHash.ksize im; MinHash.moltype := MinHash.moltype im;
     MinHash.track_abundance := true;
     MinHash.store :=
       map_imap (λ k _, Some (default 1 (src !! k))) (MinHash.hashes im) |}.

(** The policy in the words of the specification: a source sketch that
    tracks abundance is used first, else the explicit mapping; an
    intersection hash the chosen source does not have gets abundance 1;
    with neither source the plain intersection is returned. *)
Definition weighted_intersection_policy (self : FracMinHashComparison)
    (from_mh : option MinHash.t) (from_abundD : gmap N N)
  : result MinHash.t :=
  im ← intersect_mh self;
  let explicit :=
    if bool_decide (from_abundD = ∅) then Ok im
    else Ok (tagged im from_abundD) in
  match from_mh with
  | Some m =>
      if MinHash.track_abundance m then Ok (tagged im (MinHash.hashes m))
      else explicit
  | None => explicit
  end.

(** ** Further notions used in the statements *)

(** What the kind test of [check_compatibility_and_downsample] lets
    through: both sketches have a non-zero [num], or both a non-zero
    [scaled]. *)
Definition same_kind (m1 m2 : MinHash.t) : Prop :=
  (MinHash.num m1 ≠ 0 ∧ MinHash.num m2 ≠ 0)
  ∨ (MinHash.scaled m1 ≠ 0 ∧ MinHash.scaled m2 ≠ 0).

(** The outcome of [check_compatibility_and_downsample] by order of
    precedence of its failures. *)
Definition check_outcome (b : BaseMinHashComparison)
    (cmp_num cmp_scaled : option N) : result unit :=
  if negb (kinds_agree (mh1 b) (mh2 b)) then
    Raise (TypeError msg_kind_mismatch)
  else
    match selector cmp_num cmp_scaled with
    | None => Raise (ValueError msg_no_resolution)
    | Some (na, sa) =>
        match MinHash.downsample (prepared (ignore_abundance b) (mh1 b)) na sa
        with
        | Raise e => Raise e
        | Ok d1 =>
            match MinHash.downsample (prepared (ignore_abundance b) (mh2 b))
                    na sa with
            | Raise e => Raise e
            | Ok d2 =>
                if MinHash.is_compatible d1 d2 then Ok ()
                else Raise (TypeError msg_incompatible)
            end
        end
    end.

(** Agreement of two sketches on identity metadata. *)
Definition same_identity (m1 m2 : MinHash.t) : Prop :=
  MinHash.ksize m1 = MinHash.ksize m2
  ∧ MinHash.moltype m1 = MinHash.moltype m2.

(** Two comparison objects for the examples: the fixed-rate comparison of
    [rate10] and [rate20] with a threshold of 50, and the fixed-size
    comparison of [size500] and [size2]. *)
Definition frac_example : FracMinHashComparison :=
  {| frac_base :=
       validated (BaseMinHashComparison_fields rate10 rate20 false)
         (sketch 0 20 21 true {[ 5 := 3; 7 := 2; 100 := 4 ]}) rate20;
     cmp_scaled := Some 20; threshold_bp := 50;
     estimate_ani_ci := false; ani_confidence := 95 # 100 |}.

Definition num_example : NumMinHashComparison :=
  {| num_base :=
       validated (BaseMinHashComparison_fields size500 size2 false)
         (sketch 2 0 21 false {[ 5 := 1; 9 := 1 ]})
         (sketch 2 0 21 true {[ 5 := 6; 7 := 1 ]});
     cmp_num := Some 2 |}.

(** * Properties *)

(** ** Symbolic evaluation of the construction protocol *)

Ltac unfold_method :=
  unfold mbind, mret, method_mbind, method_ret, result_mbind, result_ret,
    bind_m, ret_m, result_bind, raise, get, put, attr, call, on_base,
    flatten_call, downsample_call, is_compatible_call, attr_of in *.

Ltac run_protocol :=
  unfold check_compatibility_and_downsample,
    downsample_and_handle_ignore_abundance, kinds_agree, prepared,
    flatten_calls, normalized, validated in *;
  unfold_method; cbn [fst snd].

Lemma check_compatibility_and_downsample_run b tr cn cs na sa d1 d2 :
  kinds_agree (mh1 b) (mh2 b) = true →
  selector cn cs = Some (na, sa) →
  MinHash.downsample (prepared (ignore_abundance b) (mh1 b)) na sa = Ok d1 →
  MinHash.downsample (prepared (ignore_abundance b) (mh2 b)) na sa = Ok d2 →
  check_compatibility_and_downsample cn cs (b, tr) =
    let tr' := tr ++ flatten_calls (ignore_abundance b) (mh1 b) (mh2 b)
                  ++ [CallDownsample (prepared (ignore_abundance b) (mh1 b)) na sa;
                      CallDownsample (prepared (ignore_abundance b) (mh2 b)) na sa;
                      CallIsCompatible d1 d2] in
    if MinHash.is_compatible d1 d2 then (Ok (), (validated b d1 d2, tr'))
    else (Raise (TypeError msg_incompatible), (normalized b d1 d2, tr')).
Proof.
  intros Hk Hsel H1 H2.
  unfold check_compatibility_and_downsample,
    downsample_and_handle_ignore_abundance, kinds_agree, prepared,
    flatten_calls in *.
  unfold_method. cbn [fst snd]. rewrite Hk. cbn [negb].
  destruct cs as [s|], cn as [n|]; simplify_eq/=;
    destruct (ignore_abundance b); cbn [fst snd mh1_cmp mh2_cmp set_mh1_cmp set_mh2_cmp mh1 mh2];
    rewrite ?H1; cbn [fst snd mh1_cmp mh2_cmp set_mh1_cmp set_mh2_cmp mh1 mh2]; rewrite ?H2;
    cbn [fst snd mh1_cmp mh2_cmp set_mh1_cmp set_mh2_cmp mh1 mh2];
    destruct (MinHash.is_compatible d1 d2); cbn; rewrite <- ?app_assoc; reflexivity.
Qed.

Lemma check_kind_mismatch b tr cn cs :
  kinds_agree (mh1 b) (mh2 b) = false →
  check_compatibility_and_downsample cn cs (b, tr)
  = (Raise (TypeError msg_kind_mismatch), (b, tr)).
Proof. intros Hk. run_protocol. by rewrite Hk. Qed.

Lemma downsample_and_handle_no_resolution b tr :
  downsample_and_handle_ignore_abundance None None (b, tr)
  = (Raise (ValueError msg_no_resolution),
     (normalized b (prepared (ignore_abundance b) (mh1 b))
                   (prepared (ignore_abundance b) (mh2 b)),
      tr ++ flatten_calls (ignore_abundance b) (mh1 b) (mh2 b))).
Proof.
  run_protocol. destruct (ignore_abundance b); cbn;
    rewrite <- ?app_assoc, ?app_nil_r; reflexivity.
Qed.

Lemma check_no_resolution b tr :
  kinds_agree (mh1 b) (mh2 b) = true →
  check_compatibility_and_downsample None None (b, tr)
  = (Raise (ValueError msg_no_resolution),
     (normalized b (prepared (ignore_abundance b) (mh1 b))
                   (prepared (ignore_abundance b) (mh2 b)),
      tr ++ flatten_calls (ignore_abundance b) (mh1 b) (mh2 b))).
Proof.
  intros Hk. run_protocol. rewrite Hk. cbn [negb fst snd].
  destruct (ignore_abundance b); cbn;
    rewrite <- ?app_assoc, ?app_nil_r; reflexivity.
Qed.

Lemma check_first_downsample_fails b tr cn cs na sa e :
  kinds_agree (mh1 b) (mh2 b) = true →
  selector cn cs = Some (na, sa) →
  MinHash.downsample (prepared (ignore_abundance b) (mh1 b)) na sa = Raise e →
  check_compatibility_and_downsample cn cs (b, tr)
  = (Raise e,
     (normalized b (prepared (ignore_abundance b) (mh1 b))
                   (prepared (ignore_abundance b) (mh2 b)),
      tr ++ flatten_calls (ignore_abundance b) (mh1 b) (mh2 b)
         ++ [CallDownsample (prepared (ignore_abundance b) (mh1 b)) na sa])).
Proof.
  intros Hk Hsel H1. run_protocol. rewrite Hk. cbn [negb].
  destruct cs as [s|], cn as [n|]; simplify_eq/=;
    destruct (ignore_abundance b);
    cbn [fst snd mh1_cmp mh2_cmp set_mh1_cmp set_mh2_cmp mh1 mh2];
    rewrite H1; cbn; rewrite <- ?app_assoc; reflexivity.
Qed.

Lemma check_second_downsample_fails b tr cn cs na sa d1 e :
  kinds_agree (mh1 b) (mh2 b) = true →
  selector cn cs = Some (na, sa) →
  MinHash.downsample (prepared (ignore_abundance b) (mh1 b)) na sa = Ok d1 →
  MinHash.downsample (prepared (ignore_abundance b) (mh2 b)) na sa = Raise e →
  check_compatibility_and_downsample cn cs (b, tr)
  = (Raise e,
     (normalized b d1 (prepared (ignore_abundance b) (mh2 b)),
      tr ++ flatten_calls (ignore_abundance b) (mh1 b) (mh2 b)
         ++ [CallDownsample (prepared (ignore_abundance b) (mh1 b)) na sa;
             CallDownsample (prepared (ignore_abundance b) (mh2 b)) na sa])).
Proof.
  intros Hk Hsel H1 H2. run_protocol. rewrite Hk. cbn [negb].
  destruct cs as [s|], cn as [n|]; simplify_eq/=;
    destruct (ignore_abundance b);
    cbn [fst snd mh1_cmp mh2_cmp set_mh1_cmp set_mh2_cmp mh1 mh2];
    rewrite H1; cbn [fst snd mh1_cmp mh2_cmp set_mh1_cmp set_mh2_cmp mh1 mh2];
    rewrite H2; cbn; rewrite <- ?app_assoc; reflexivity.
Qed.

(** What a successful run of the protocol has done. *)
Lemma check_compatibility_and_downsample_ok b tr cn cs b' tr' :
  check_compatibility_and_downsample cn cs (b, tr) = (Ok (), (b', tr')) →
  ∃ na sa d1 d2,
    kinds_agree (mh1 b) (mh2 b) = true
    ∧ selector cn cs = Some (na, sa)
    ∧ MinHash.downsample (prepared (ignore_abundance b) (mh1 b)) na sa = Ok d1
    ∧ MinHash.downsample (prepared (ignore_abundance b) (mh2 b)) na sa = Ok d2
    ∧ MinHash.is_compatible d1 d2 = true
    ∧ b' = validated b d1 d2
    ∧ tr' = tr ++ flatten_calls (ignore_abundance b) (mh1 b) (mh2 b)
               ++ [CallDownsample (prepared (ignore_abundance b) (mh1 b)) na sa;
                   CallDownsample (prepared (ignore_abundance b) (mh2 b)) na sa;
                   CallIsCompatible d1 d2].
Proof.
  intros Hrun.
  destruct (kinds_agree (mh1 b) (mh2 b)) eqn:Hk;
    [| by rewrite check_kind_mismatch in Hrun].
  destruct (selector cn cs) as [[na sa]|] eqn:Hsel; last first.
  { destruct cs, cn; simplify_eq/=. by rewrite check_no_resolution in Hrun. }
  destruct (MinHash.downsample (prepared (ignore_abundance b) (mh1 b)) na sa)
    as [d1|e] eqn:H1;
    [| by rewrite (check_first_downsample_fails _ _ _ _ _ _ _ Hk Hsel H1) in Hrun].
  destruct (MinHash.downsample (prepared (ignore_abundance b) (mh2 b)) na sa)
    as [d2|e] eqn:H2;
    [| by rewrite (check_second_downsample_fails _ _ _ _ _ _ _ _ Hk Hsel H1 H2)
         in Hrun].
  rewrite (check_compatibility_and_downsample_run _ _ _ _ _ _ _ _ Hk Hsel H1 H2)
    in Hrun.
  cbn zeta in Hrun.
  destruct (MinHash.is_compatible d1 d2) eqn:Hc; [| done].
  exists na, sa, d1, d2. by simplify_eq.
Qed.

Lemma NumMinHashComparison_init_run m1 m2 ia cn :
  NumMinHashComparison_init m1 m2 ia cn =
  let n := resolved_num m1 m2 cn in
  let '(r, (b, tr)) :=
    check_compatibility_and_downsample (Some n) None
      (BaseMinHashComparison_fields m1 m2 ia, []) in
  (r, ({| num_base := b; cmp_num := Some n |}, tr)).
Proof.
  unfold NumMinHashComparison_init, NumMinHashComparison_post_init.
  unfold_method. destruct cn as [n|]; cbn;
    by destruct (check_compatibility_and_downsample _ _ _) as [r [b tr]].
Qed.

Lemma FracMinHashComparison_init_run m1 m2 ia cs thr ci conf :
  FracMinHashComparison_init m1 m2 ia cs thr ci conf =
  let s := resolved_scaled m1 m2 cs in
  let '(r, (b, tr)) :=
    check_compatibility_and_downsample None (Some s)
      (BaseMinHashComparison_fields m1 m2 ia, []) in
  (r, ({| frac_base := b; cmp_scaled := Some s; threshold_bp := thr;
          estimate_ani_ci := ci; ani_confidence := conf |}, tr)).
Proof.
  unfold FracMinHashComparison_init, FracMinHashComparison_post_init.
  unfold_method. destruct cs as [s|]; cbn;
    by destruct (check_compatibility_and_downsample _ _ _) as [r [b tr]].
Qed.

Lemma NumMinHashComparison_new_ok m1 m2 ia cn self :
  NumMinHashComparison_new m1 m2 ia cn = Ok self →
  ∃ d1 d2,
    let n := resolved_num m1 m2 cn in
    kinds_agree m1 m2 = true
    ∧ MinHash.downsample (prepared ia m1) (Some n) None = Ok d1
    ∧ MinHash.downsample (prepared ia m2) (Some n) None = Ok d2
    ∧ MinHash.is_compatible d1 d2 = true
    ∧ self = {| num_base :=
                  validated (BaseMinHashComparison_fields m1 m2 ia) d1 d2;
                cmp_num := Some n |}.
Proof.
  unfold NumMinHashComparison_new. rewrite NumMinHashComparison_init_run.
  cbn zeta.
  destruct (check_compatibility_and_downsample _ _ _) as [[[]|e] [b tr]] eqn:Hrun;
    [| done].
  intros [= <-].
  apply check_compatibility_and_downsample_ok in Hrun
    as (na & sa & d1 & d2 & Hk & Hsel & H1 & H2 & Hc & -> & _).
  cbn in Hsel. simplify_eq. by exists d1, d2.
Qed.

Lemma FracMinHashComparison_new_ok m1 m2 ia cs thr ci conf self :
  FracMinHashComparison_new m1 m2 ia cs thr ci conf = Ok self →
  ∃ d1 d2,
    let s := resolved_scaled m1 m2 cs in
    kinds_agree m1 m2 = true
    ∧ MinHash.downsample (prepared ia m1) None (Some s) = Ok d1
    ∧ MinHash.downsample (prepared ia m2) None (Some s) = Ok d2
    ∧ MinHash.is_compatible d1 d2 = true
    ∧ self = {| frac_base :=
                  validated (BaseMinHashComparison_fields m1 m2 ia) d1 d2;
                cmp_scaled := Some s; threshold_bp := thr;
                estimate_ani_ci := ci; ani_confidence := conf |}.
Proof.
  unfold FracMinHashComparison_new. rewrite FracMinHashComparison_init_run.
  cbn zeta.
  destruct (check_compatibility_and_downsample _ _ _) as [[[]|e] [b tr]] eqn:Hrun;
    [| done].
  intros [= <-].
  apply check_compatibility_and_downsample_ok in Hrun
    as (na & sa & d1 & d2 & Hk & Hsel & H1 & H2 & Hc & -> & _).
  cbn in Hsel. simplify_eq. by exists d1, d2.
Qed.

Lemma constructed_inv self :
  constructed self →
  ∃ na sa d1 d2,
    kinds_agree (mh1 self) (mh2 self) = true
    ∧ MinHash.downsample (prepared (ignore_abundance self) (mh1 self)) na sa
      = Ok d1
    ∧ MinHash.downsample (prepared (ignore_abundance self) (mh2 self)) na sa
      = Ok d2
    ∧ MinHash.is_compatible d1 d2 = true
    ∧ mh1_cmp self = Some d1 ∧ mh2_cmp self = Some d2
    ∧ ksize self = Some (MinHash.ksize (mh1 self))
    ∧ moltype self = Some (MinHash.moltype (mh1 self)).
Proof.
  intros [m1 m2 ia cn s Hnew | m1 m2 ia cs thr ci conf s Hnew].
  - apply NumMinHashComparison_new_ok in Hnew
      as (d1 & d2 & Hk & H1 & H2 & Hc & ->).
    by exists (Some (resolved_num m1 m2 cn)), None, d1, d2.
  - apply FracMinHashComparison_new_ok in Hnew
      as (d1 & d2 & Hk & H1 & H2 & Hc & ->).
    by exists None, (Some (resolved_scaled m1 m2 cs)), d1, d2.
Qed.

(** ** Facts on the engine *)

Lemma downsample_keeps m na sa d :
  MinHash.downsample m na sa = Ok d →
  MinHash.track_abundance d = MinHash.track_abundance m
  ∧ MinHash.ksize d = MinHash.ksize m
  ∧ MinHash.moltype d = MinHash.moltype m
  ∧ MinHash.store d ⊆ MinHash.store m.
Proof.
  unfold MinHash.downsample.
  destruct na as [n|], sa as [s|]; try done; repeat case_match; try done;
    intros [= <-]; cbn; repeat split; apply map_filter_subseteq.
Qed.

Lemma downsample_resolution m na sa d :
  MinHash.downsample m na sa = Ok d →
  (∀ n, na = Some n → MinHash.num d = n ∧ MinHash.scaled d = 0)
  ∧ (∀ s, sa = Some s → MinHash.scaled d = s ∧ MinHash.num d = 0).
Proof.
  unfold MinHash.downsample.
  destruct na as [n|], sa as [s|]; try done; repeat case_match; try done;
    intros [= <-]; cbn; split; intros ? [= <-]; done.
Qed.

Lemma mixed_kinds_disagree m1 m2 :
  mixed_kinds m1 m2 → kinds_agree m1 m2 = false.
Proof.
  unfold mixed_kinds, fixed_size, fixed_rate, kinds_agree, any, py_and, truthy.
  cbn [existsb].
  intros [[[Hn1 Hs1] [Hs2 Hn2]] | [[Hs1 Hn1] [Hn2 Hs2]]].
  - rewrite Hn2, Hs1. apply N.eqb_neq in Hn1. by rewrite Hn1.
  - rewrite Hn1, Hs2. apply N.eqb_neq in Hs1. by rewrite Hs1.
Qed.

(** Two fixed-size sketches of sample counts 500 and 2 are compared on 2
    hashes each; two fixed-rate sketches of rates 10 and 20 on rate 20. *)
Example fixed_size_default_resolution :
  ∃ self, NumMinHashComparison_new size500 size2 false None = Ok self
          ∧ cmp_num self = Some 2
          ∧ (MinHash.len <$> mh1_cmp self) = Some 2
          ∧ (MinHash.len <$> mh2_cmp self) = Some 2
          ∧ (MinHash.hashes <$> mh2_cmp self) = Some {[ 5 := 6; 7 := 1 ]}.
Proof. vm_compute. eexists. repeat split. Qed.

Example fixed_rate_default_resolution :
  ∃ self, FracMinHashComparison_new rate10 rate20 false None 0 false (95 # 100)
          = Ok self
          ∧ cmp_scaled self = Some 20
          ∧ (MinHash.scaled <$> mh1_cmp self) = Some 20
          ∧ intersect_bp self = Ok 40%Z.
Proof. vm_compute. eexists. repeat split. Qed.

(** C1: without a resolution override the constructors resolve the
    comparison resolution to the coarser of the two sketches' own:
    [NumMinHashComparison] records [cmp_num = min(mh1.num, mh2.num)] and
    [FracMinHashComparison] records [cmp_scaled = max(mh1.scaled,
    mh2.scaled)], and each then proceeds exactly as if that value had been
    passed by the caller. *)
Theorem default_resolution_is_coarser m1 m2 ia thr ci conf :
  let n := N.min (MinHash.num m1) (MinHash.num m2) in
  let s := N.max (MinHash.scaled m1) (MinHash.scaled m2) in
  cmp_num (NumMinHashComparison_init m1 m2 ia None).2.1 = Some n
  ∧ NumMinHashComparison_init m1 m2 ia None
    = NumMinHashComparison_init m1 m2 ia (Some n)
  ∧ cmp_scaled (FracMinHashComparison_init m1 m2 ia None thr ci conf).2.1
    = Some s
  ∧ FracMinHashComparison_init m1 m2 ia None thr ci conf
    = FracMinHashComparison_init m1 m2 ia (Some s) thr ci conf.
Proof.
  cbn zeta. rewrite !NumMinHashComparison_init_run,
    !FracMinHashComparison_init_run. cbn [resolved_num resolved_scaled].
  repeat split.
  - by destruct (check_compatibility_and_downsample _ _ _) as [r [b tr]].
  - by destruct (check_compatibility_and_downsample _ _ _) as [r [b tr]].
Qed.

(** C3: when one sketch is fixed-size and the other fixed-rate, both
    constructors raise the kind-mismatch [TypeError]; no comparison object
    is returned, so no statistic can be derived. *)
Theorem mixed_kinds_rejected m1 m2 ia cn cs thr ci conf :
  mixed_kinds m1 m2 →
  NumMinHashComparison_new m1 m2 ia cn = Raise (TypeError msg_kind_mismatch)
  ∧ FracMinHashComparison_new m1 m2 ia cs thr ci conf
    = Raise (TypeError msg_kind_mismatch).
Proof.
  intros Hmix%mixed_kinds_disagree.
  unfold NumMinHashComparison_new, FracMinHashComparison_new.
  rewrite NumMinHashComparison_init_run, FracMinHashComparison_init_run.
  cbn zeta. by rewrite !check_kind_mismatch.
Qed.

Lemma mixed_kinds_rejected_witness :
  NumMinHashComparison_new rate10 size500 false None
  = Raise (TypeError msg_kind_mismatch)
  ∧ FracMinHashComparison_new rate10 size500 false None 0 false (95 # 100)
    = Raise (TypeError msg_kind_mismatch).
Proof.
  apply (mixed_kinds_rejected rate10 size500 false None None 0 false (95 # 100)).
  right. repeat split; cbn; discriminate.
Defined.

(** C10: for a mixed-kind pair the kind check fails before anything else
    is done.  The method leaves the object and the record of engine calls
    as it found them, whatever resolution was requested (none at all, or
    one the sketches could not be brought to); construction ends with no
    engine call made and [mh1_cmp], [mh2_cmp] unset. *)
Theorem kind_check_precedes_normalization m1 m2 ia cn cs thr ci conf tr :
  mixed_kinds m1 m2 →
  let b := BaseMinHashComparison_fields m1 m2 ia in
  check_compatibility_and_downsample cn cs (b, tr)
  = (Raise (TypeError msg_kind_mismatch), (b, tr))
  ∧ (∃ self : NumMinHashComparison,
       NumMinHashComparison_init m1 m2 ia cn
       = (Raise (TypeError msg_kind_mismatch), (self, []))
       ∧ mh1_cmp self = None ∧ mh2_cmp self = None)
  ∧ (∃ self : FracMinHashComparison,
       FracMinHashComparison_init m1 m2 ia cs thr ci conf
       = (Raise (TypeError msg_kind_mismatch), (self, []))
       ∧ mh1_cmp self = None ∧ mh2_cmp self = None).
Proof.
  intros Hmix%mixed_kinds_disagree b.
  rewrite NumMinHashComparison_init_run, FracMinHashComparison_init_run.
  cbn zeta. rewrite !check_kind_mismatch by done. eauto 10.
Qed.

Lemma kind_check_precedes_normalization_witness :
  check_compatibility_and_downsample None None
    (BaseMinHashComparison_fields size500 rate10 true, [])
  = (Raise (TypeError msg_kind_mismatch),
     (BaseMinHashComparison_fields size500 rate10 true, []))
  ∧ (∃ self : NumMinHashComparison,
       NumMinHashComparison_init size500 rate10 true None
       = (Raise (TypeError msg_kind_mismatch), (self, []))
       ∧ mh1_cmp self = None ∧ mh2_cmp self = None)
  ∧ (∃ self : FracMinHashComparison,
       FracMinHashComparison_init size500 rate10 true None 0 false (95 # 100)
       = (Raise (TypeError msg_kind_mismatch), (self, []))
       ∧ mh1_cmp self = None ∧ mh2_cmp self = None).
Proof.
  apply (kind_check_precedes_normalization size500 rate10 true None None
           0 false (95 # 100) []).
  left. repeat split; cbn; discriminate.
Defined.

(** C4, as stated, fails: a call that supplies both resolutions is
    accepted. *)
Lemma both_resolutions_accepted :
  ¬ exactly_one_enforced (BaseMinHashComparison_fields rate10 rate20 false, [])
      (Some 2) (Some 20).
Proof.
  unfold exactly_one_enforced. intros Hclaim.
  assert (Hok : is_ok (downsample_and_handle_ignore_abundance (Some 2) (Some 20)
                         (BaseMinHashComparison_fields rate10 rate20 false, [])).1
                = true) by (vm_compute; reflexivity).
  specialize (Hclaim Hok). discriminate Hclaim.
Qed.

(** C4, amended: at least one resolution has to be supplied.  Supplying
    neither raises [ValueError] ("must pass in a comparison scaled or num
    value") for every pair of sketches, after the abundance handling and
    before any downsampling; supplying both is accepted, [cmp_scaled] taking
    precedence and [cmp_num] being ignored. *)
Theorem resolution_argument_policy b tr cn s :
  downsample_and_handle_ignore_abundance None None (b, tr)
  = (Raise (ValueError msg_no_resolution),
     (normalized b (prepared (ignore_abundance b) (mh1 b))
                   (prepared (ignore_abundance b) (mh2 b)),
      tr ++ flatten_calls (ignore_abundance b) (mh1 b) (mh2 b)))
  ∧ downsample_and_handle_ignore_abundance cn (Some s) (b, tr)
    = downsample_and_handle_ignore_abundance None (Some s) (b, tr).
Proof.
  split; [apply downsample_and_handle_no_resolution |].
  unfold downsample_and_handle_ignore_abundance. by destruct cn.
Qed.

(** ** Abundance handling *)

Lemma flatten_hashes_one m k v :
  MinHash.track_abundance m = false → MinHash.hashes m !! k = Some v → v = 1.
Proof.
  unfold MinHash.hashes. intros ->. rewrite lookup_fmap.
  destruct (MinHash.store m !! k); naive_solver.
Qed.

(** C5: in a constructed comparison with [ignore_abundance] set, both
    normalised sketches are the downsampled flattened copies of the
    originals; they do not track abundance and report 1 for each hash,
    whatever the originals tracked.  With [ignore_abundance] unset they are
    the originals themselves, downsampled. *)
Theorem ignore_abundance_strips self :
  constructed self →
  ∃ c1 c2 na sa,
    mh1_cmp self = Some c1 ∧ mh2_cmp self = Some c2
    ∧ if ignore_abundance self then
        MinHash.downsample (MinHash.flatten (mh1 self)) na sa = Ok c1
        ∧ MinHash.downsample (MinHash.flatten (mh2 self)) na sa = Ok c2
        ∧ MinHash.track_abundance c1 = false
        ∧ MinHash.track_abundance c2 = false
        ∧ (∀ k v, MinHash.hashes c1 !! k = Some v → v = 1)
        ∧ (∀ k v, MinHash.hashes c2 !! k = Some v → v = 1)
      else
        MinHash.downsample (mh1 self) na sa = Ok c1
        ∧ MinHash.downsample (mh2 self) na sa = Ok c2
        ∧ MinHash.track_abundance c1 = MinHash.track_abundance (mh1 self)
        ∧ MinHash.track_abundance c2 = MinHash.track_abundance (mh2 self).
Proof.
  intros (na & sa & d1 & d2 & _ & H1 & H2 & _ & Hc1 & Hc2 & _)%constructed_inv.
  exists d1, d2, na, sa. split; [done |]. split; [done |].
  pose proof (downsample_keeps _ _ _ _ H1) as (Ht1 & _).
  pose proof (downsample_keeps _ _ _ _ H2) as (Ht2 & _).
  unfold prepared in *. destruct (ignore_abundance self); [| done].
  cbn in Ht1, Ht2. repeat split; try done.
  - intros k v. by apply flatten_hashes_one.
  - intros k v. by apply flatten_hashes_one.
Qed.

Lemma rate10_rate20_ignoring_abundance :
  FracMinHashComparison_new rate10 rate20 true None 0 false (95 # 100)
  = Ok {| frac_base :=
            validated (BaseMinHashComparison_fields rate10 rate20 true)
              (sketch 0 20 21 false {[ 5 := 1; 7 := 1; 100 := 1 ]}) rate20;
          cmp_scaled := Some 20; threshold_bp := 0;
          estimate_ani_ci := false; ani_confidence := 95 # 100 |}.
Proof. vm_compute. reflexivity. Defined.

Lemma ignore_abundance_strips_witness :
  ∃ c1 c2 na sa,
    Some (sketch 0 20 21 false {[ 5 := 1; 7 := 1; 100 := 1 ]}) = Some c1
    ∧ Some rate20 = Some c2
    ∧ MinHash.downsample (MinHash.flatten rate10) na sa = Ok c1
      ∧ MinHash.downsample (MinHash.flatten rate20) na sa = Ok c2
      ∧ MinHash.track_abundance c1 = false
      ∧ MinHash.track_abundance c2 = false
      ∧ (∀ k v, MinHash.hashes c1 !! k = Some v → v = 1)
      ∧ (∀ k v, MinHash.hashes c2 !! k = Some v → v = 1).
Proof.
  exact (ignore_abundance_strips _
           (constructed_frac _ _ _ _ _ _ _ _ rate10_rate20_ignoring_abundance)).
Defined.




(** ** Base-pair intersection and the threshold *)

Lemma len_flatten m : MinHash.len (MinHash.flatten m) = MinHash.len m.
Proof. unfold MinHash.len, MinHash.flatten. cbn. by rewrite map_size_fmap. Qed.

Lemma len_intersection_le a b :
  MinHash.len (MinHash.intersection a b) ≤ N.min (MinHash.len a) (MinHash.len b).
Proof.
  unfold MinHash.len, MinHash.intersection. cbn.
  rewrite <- !(size_dom (D := gset N)), dom_intersection_L.
  assert (size (dom (MinHash.store a) ∩ dom (MinHash.store b))
          ≤ size (dom (MinHash.store a)))%nat
    by apply subseteq_size, intersection_subseteq_l.
  assert (size (dom (MinHash.store a) ∩ dom (MinHash.store b))
          ≤ size (dom (MinHash.store b)))%nat
    by apply subseteq_size, intersection_subseteq_r.
  lia.
Qed.

(** C7: on a fixed-rate comparison [intersect_bp] is the number of hashes
    of the intersection sketch times the resolved [cmp_scaled], and
    [pass_threshold] is the test [intersect_bp >= threshold_bp].  It passes
    for a threshold of 0 and fails for every threshold above
    [min(len(mh1_cmp), len(mh2_cmp)) * cmp_scaled], the most
    [intersect_bp] can be. *)
Theorem intersect_bp_and_threshold m1 m2 ia cs thr ci conf self :
  FracMinHashComparison_new m1 m2 ia cs thr ci conf = Ok self →
  ∃ im c1 c2 s,
    intersect_mh self = Ok im
    ∧ mh1_cmp self = Some c1 ∧ mh2_cmp self = Some c2
    ∧ cmp_scaled self = Some s ∧ s = resolved_scaled m1 m2 cs
    ∧ threshold_bp self = thr
    ∧ let bp := (Z.of_N (MinHash.len im) * Z.of_N s)%Z in
      let most := (Z.of_N (N.min (MinHash.len c1) (MinHash.len c2))
                   * Z.of_N s)%Z in
      intersect_bp self = Ok bp
      ∧ pass_threshold self = Ok (bp >=? thr)%Z
      ∧ (pass_threshold self = Ok true ↔ (thr ≤ bp)%Z)
      ∧ (thr = 0%Z → pass_threshold self = Ok true)
      ∧ (0 ≤ bp ≤ most)%Z
      ∧ ((most < thr)%Z → pass_threshold self = Ok false).
Proof.
  intros (d1 & d2 & _ & _ & _ & _ & ->)%FracMinHashComparison_new_ok.
  exists (MinHash.intersection (MinHash.flatten d1) (MinHash.flatten d2)),
    d1, d2, (resolved_scaled m1 m2 cs).
  pose proof (len_intersection_le (MinHash.flatten d1) (MinHash.flatten d2))
    as Hle.
  rewrite !len_flatten in Hle.
  set (im := MinHash.intersection _ _) in *.
  set (s := resolved_scaled m1 m2 cs).
  repeat (split; [reflexivity |]).
  cbn zeta. unfold pass_threshold, intersect_bp, intersect_mh. cbn.
  fold im. rewrite Z.geb_leb.
  assert (Hbound : (0 ≤ Z.of_N (MinHash.len im) * Z.of_N s
                    ≤ Z.of_N (N.min (MinHash.len d1) (MinHash.len d2))
                      * Z.of_N s)%Z) by nia.
  repeat split; try reflexivity; try lia.
  - intros [= Hp]. by apply Z.leb_le.
  - intros Hp. f_equal. by apply Z.leb_le.
  - intros ->. f_equal. apply Z.leb_le. lia.
  - intros Hthr. f_equal. apply Z.leb_gt. lia.
Qed.

Lemma rate10_rate20_threshold :
  FracMinHashComparison_new rate10 rate20 false None 50 false (95 # 100)
  = Ok {| frac_base :=
            validated (BaseMinHashComparison_fields rate10 rate20 false)
              (sketch 0 20 21 true {[ 5 := 3; 7 := 2; 100 := 4 ]}) rate20;
          cmp_scaled := Some 20; threshold_bp := 50;
          estimate_ani_ci := false; ani_confidence := 95 # 100 |}.
Proof. vm_compute. reflexivity. Defined.

Lemma intersect_bp_and_threshold_witness :
  ∃ self,
    FracMinHashComparison_new rate10 rate20 false None 50 false (95 # 100)
    = Ok self
    ∧ intersect_bp self = Ok 40%Z ∧ pass_threshold self = Ok false.
Proof.
  eexists. split; [exact rate10_rate20_threshold |].
  destruct (intersect_bp_and_threshold _ _ _ _ _ _ _ _ rate10_rate20_threshold)
    as (im & c1 & c2 & s & Him & _ & _ & Hs & _ & _ & Hbp & Hpass & _).
  injection Him as <-. injection Hs as <-.
  split; [exact Hbp | exact Hpass].
Defined.

(** ** The compatibility check *)

Lemma is_compatible_agree a b :
  MinHash.is_compatible a b = true →
  MinHash.ksize a = MinHash.ksize b
  ∧ MinHash.moltype a = MinHash.moltype b
  ∧ MinHash.scaled a = MinHash.scaled b.
Proof.
  unfold MinHash.is_compatible.
  intros [[Hk%N.eqb_eq Hm%bool_decide_eq_true]%andb_prop Hs%N.eqb_eq]%andb_prop.
  done.
Qed.

(** C8: the compatibility check is made on the two downsampled sketches,
    after both [downsample] calls.  When it fails the method raises the
    "Cannot compare incompatible sketches" [TypeError], leaving [ksize] and
    [moltype] as they were; when it succeeds the two normalised sketches
    agree on k-mer size, molecule type and resolution, and [ksize] and
    [moltype] are assigned from sketch 1. *)
Theorem compatibility_checked_after_downsampling b tr cn cs na sa d1 d2 :
  kinds_agree (mh1 b) (mh2 b) = true →
  selector cn cs = Some (na, sa) →
  MinHash.downsample (prepared (ignore_abundance b) (mh1 b)) na sa = Ok d1 →
  MinHash.downsample (prepared (ignore_abundance b) (mh2 b)) na sa = Ok d2 →
  ∃ b',
    check_compatibility_and_downsample cn cs (b, tr)
    = (if MinHash.is_compatible d1 d2 then Ok ()
       else Raise (TypeError msg_incompatible),
       (b',
        tr ++ flatten_calls (ignore_abundance b) (mh1 b) (mh2 b)
           ++ [CallDownsample (prepared (ignore_abundance b) (mh1 b)) na sa;
               CallDownsample (prepared (ignore_abundance b) (mh2 b)) na sa;
               CallIsCompatible d1 d2]))
    ∧ mh1_cmp b' = Some d1 ∧ mh2_cmp b' = Some d2
    ∧ if MinHash.is_compatible d1 d2 then
        ksize b' = Some (MinHash.ksize (mh1 b))
        ∧ moltype b' = Some (MinHash.moltype (mh1 b))
        ∧ MinHash.ksize d1 = MinHash.ksize d2
        ∧ MinHash.moltype d1 = MinHash.moltype d2
        ∧ MinHash.scaled d1 = MinHash.scaled d2
        ∧ MinHash.num d1 = MinHash.num d2
      else ksize b' = ksize b ∧ moltype b' = moltype b.
Proof.
  intros Hk Hsel H1 H2.
  assert (Hnum : MinHash.num d1 = MinHash.num d2).
  { destruct (downsample_resolution _ _ _ _ H1) as [Hn1 Hs1].
    destruct (downsample_resolution _ _ _ _ H2) as [Hn2 Hs2].
    destruct cs as [s|], cn as [n|]; simplify_eq/=.
    - destruct (Hs1 _ eq_refl) as [_ ->]. by destruct (Hs2 _ eq_refl) as [_ ->].
    - destruct (Hs1 _ eq_refl) as [_ ->]. by destruct (Hs2 _ eq_refl) as [_ ->].
    - destruct (Hn1 _ eq_refl) as [-> _]. by destruct (Hn2 _ eq_refl) as [-> _]. }
  rewrite (check_compatibility_and_downsample_run _ tr _ _ _ _ _ _ Hk Hsel H1 H2).
  cbn zeta.
  destruct (MinHash.is_compatible d1 d2) eqn:Hc.
  - exists (validated b d1 d2). apply is_compatible_agree in Hc. by intuition.
  - exists (normalized b d1 d2). by intuition.
Qed.

Lemma compatibility_checked_after_downsampling_witness :
  ∃ b',
    check_compatibility_and_downsample None (Some 20)
      (BaseMinHashComparison_fields rate10_k31 rate20 false, [])
    = (Raise (TypeError msg_incompatible),
       (b',
        [CallDownsample rate10_k31 None (Some 20);
         CallDownsample rate20 None (Some 20);
         CallIsCompatible (sketch 0 20 31 false {[ 5 := 1; 9 := 1 ]}) rate20]))
    ∧ mh1_cmp b' = Some (sketch 0 20 31 false {[ 5 := 1; 9 := 1 ]})
    ∧ mh2_cmp b' = Some rate20
    ∧ ksize b' = None ∧ moltype b' = None.
Proof.
  assert (H1 : MinHash.downsample rate10_k31 None (Some 20)
               = Ok (sketch 0 20 31 false {[ 5 := 1; 9 := 1 ]}))
    by (vm_compute; reflexivity).
  assert (H2 : MinHash.downsample rate20 None (Some 20) = Ok rate20)
    by (vm_compute; reflexivity).
  exact (compatibility_checked_after_downsampling
           (BaseMinHashComparison_fields rate10_k31 rate20 false) []
           None (Some 20) None (Some 20) _ _ eq_refl eq_refl H1 H2).
Defined.

(** ** Averages *)

Lemma np_mean_pair (x y : Q) : (np_mean [x; y] == (x + y) / 2)%Q.
Proof. unfold np_mean. cbn. field. Qed.

(** C9: on a fixed-rate comparison [avg_containment] is the arithmetic
    mean of [mh1_containment] and [mh2_containment], and
    [avg_containment_ani] the arithmetic mean of the [ani] point estimates
    of the two directional containment ANI results; the bounds of the
    confidence intervals do not enter it. *)
Theorem avg_containment_is_mean m1 m2 ia cs thr ci conf self :
  FracMinHashComparison_new m1 m2 ia cs thr ci conf = Ok self →
  (∀ E : Estimators,
     ∃ a b v x y w,
       mh1_containment self = Ok a ∧ mh2_containment self = Ok b
       ∧ avg_containment self = Ok v ∧ (v == (a + b) / 2)%Q
       ∧ mh1_containment_ani self = Ok x ∧ mh2_containment_ani self = Ok y
       ∧ avg_containment_ani self = Ok w ∧ (w == (ani x + ani y) / 2)%Q)
  ∧ (∀ E1 E2 : Estimators,
       (∀ a b c e, ani (@containment_ani_value E1 a b c e)
                   = ani (@containment_ani_value E2 a b c e)) →
       @avg_containment_ani E1 self = @avg_containment_ani E2 self).
Proof.
  intros (d1 & d2 & _ & _ & _ & _ & ->)%FracMinHashComparison_new_ok.
  split.
  - intros E. do 6 eexists.
    unfold avg_containment, avg_containment_ani, mh1_containment,
      mh2_containment, mh1_containment_ani, mh2_containment_ani. cbn.
    repeat split; apply np_mean_pair.
  - intros E1 E2 Hani.
    unfold avg_containment_ani, mh1_containment_ani, mh2_containment_ani.
    cbn. by rewrite !Hani.
Qed.

Lemma avg_containment_is_mean_witness :
  ∃ v, @avg_containment counting_estimators
         {| frac_base :=
              validated (BaseMinHashComparison_fields rate10 rate20 false)
                (sketch 0 20 21 true {[ 5 := 3; 7 := 2; 100 := 4 ]}) rate20;
            cmp_scaled := Some 20; threshold_bp := 50;
            estimate_ani_ci := false; ani_confidence := 95 # 100 |}
       = Ok v
       ∧ (v == (ratio 2 3 + ratio 2 3) / 2)%Q.
Proof.
  destruct (proj1 (avg_containment_is_mean _ _ _ _ _ _ _ _
                     rate10_rate20_threshold) counting_estimators)
    as (a & b & v & x & y & w & Ha & Hb & Hv & Hmean & _).
  exists v. split; [exact Hv |].
  injection Ha as <-. injection Hb as <-. exact Hmean.
Defined.

Lemma weighted_intersection_run (self : FracMinHashComparison) c1 c2
    from_mh from_abundD :
  mh1_cmp self = Some c1 → mh2_cmp self = Some c2 →
  let im := MinHash.intersection (MinHash.flatten c1) (MinHash.flatten c2) in
  let src := chosen_source from_mh from_abundD in
  weighted_intersection self from_mh from_abundD
  = if bool_decide (src = ∅) then Ok im else Ok (tagged im src).
Proof.
  intros Hc1 Hc2 im src.
  unfold weighted_intersection, intersect_mh. rewrite Hc1, Hc2.
  unfold_method. fold im. fold (chosen_source from_mh from_abundD). fold src.
  unfold MinHash.set_track_abundance, MinHash.copy_and_clear. cbn.
  rewrite bool_decide_eq_true_2 by done.
  by destruct (bool_decide (src = ∅)).
Qed.

Lemma tagged_lookup im src k :
  k ∈ dom (MinHash.hashes im) →
  MinHash.hashes (tagged im src) !! k = Some (default 1 (src !! k)).
Proof.
  intros [v Hv]%elem_of_dom. unfold tagged, MinHash.hashes at 1. cbn.
  by rewrite map_lookup_imap, Hv.
Qed.

Lemma tagged_dom im src :
  dom (MinHash.hashes (tagged im src)) = dom (MinHash.hashes im).
Proof.
  unfold tagged, MinHash.hashes at 1. cbn. apply dom_imap_L.
  intros k. rewrite elem_of_dom. unfold is_Some.
  split; [intros [v Hv]; eauto | intros (v & Hv & _); eauto].
Qed.

(** C2, as stated, fails: a source sketch that tracks abundance but holds
    no hash is not used as the source; the plain intersection comes back,
    without abundance tracking. *)
Lemma empty_source_returns_plain_intersection :
  ∃ self,
    FracMinHashComparison_new rate10 rate20 false None 50 false (95 # 100)
    = Ok self
    ∧ weighted_intersection self (Some empty_abund) {[ 5 := 9 ]}
      = Ok (sketch 0 20 21 false {[ 5 := 1; 100 := 1 ]})
    ∧ weighted_intersection_policy self (Some empty_abund) {[ 5 := 9 ]}
      = Ok (sketch 0 20 21 true {[ 5 := 1; 100 := 1 ]})
    ∧ weighted_intersection self (Some empty_abund) {[ 5 := 9 ]}
      ≠ weighted_intersection_policy self (Some empty_abund) {[ 5 := 9 ]}.
Proof.
  eexists. split; [exact rate10_rate20_threshold |].
  split; [by vm_compute |]. split; [by vm_compute |].
  vm_compute. discriminate.
Qed.

(** C2, amended: on a fixed-rate comparison [weighted_intersection] reads
    the abundances from the [hashes] of [from_mh] when [from_mh] is given and
    tracks abundance (whatever [from_abundD] is), and from [from_abundD]
    otherwise.  When that mapping is not empty, the abundances set on the
    result, an empty abundance-tracking copy of the intersection sketch, have
    one entry for each intersection hash, and a hash absent from the mapping
    is assigned 1 (never 0, never an exception).  When neither source is
    given, or the mapping is empty, the plain intersection sketch is
    returned. *)
Theorem weighted_intersection_policy_holds m1 m2 ia cs thr ci conf self
    from_mh from_abundD :
  FracMinHashComparison_new m1 m2 ia cs thr ci conf = Ok self →
  let src := chosen_source from_mh from_abundD in
  ∃ im,
    intersect_mh self = Ok im
    ∧ MinHash.track_abundance im = false
    ∧ (src = ∅ → weighted_intersection self from_mh from_abundD = Ok im)
    ∧ (src ≠ ∅ →
       ∃ abund_mh abunds,
         MinHash.set_track_abundance (MinHash.copy_and_clear im) true
         = Ok abund_mh
         ∧ MinHash.track_abundance abund_mh = true
         ∧ weighted_intersection self from_mh from_abundD
           = MinHash.set_abundances abund_mh abunds
         ∧ dom abunds = dom (MinHash.hashes im)
         ∧ (∀ k, k ∈ dom (MinHash.hashes im) →
                 abunds !! k = Some (default 1 (src !! k)))
         ∧ (∀ k, k ∈ dom (MinHash.hashes im) → src !! k = None →
                 abunds !! k = Some 1)
         ∧ ∀ r, weighted_intersection self from_mh from_abundD = Ok r →
                MinHash.track_abundance r = true
                ∧ ∀ k, k ∈ dom (MinHash.hashes im) → src !! k = None →
                       MinHash.hashes r !! k = Some 1).
Proof.
  intros (d1 & d2 & _ & _ & _ & _ & ->)%FracMinHashComparison_new_ok src.
  set (self := Build_FracMinHashComparison _ _ _ _ _).
  set (im := MinHash.intersection (MinHash.flatten d1) (MinHash.flatten d2)).
  exists im. split; [done |]. split; [done |].
  assert (Hlookup : ∀ k, k ∈ dom (MinHash.hashes im) →
            map_imap (λ k _, Some (default 1 (src !! k))) (MinHash.hashes im)
              !! k = Some (default 1 (src !! k))).
  { intros k [v Hv]%elem_of_dom. by rewrite map_lookup_imap, Hv. }
  unfold weighted_intersection, intersect_mh.
  cbn [mh1_cmp mh2_cmp frac_base self validated normalized set_moltype
         set_ksize set_mh1_cmp set_mh2_cmp attr_of mbind result_mbind
         result_bind]. fold im.
  fold (chosen_source from_mh from_abundD). fold src.
  unfold MinHash.set_track_abundance, MinHash.copy_and_clear.
  cbn [MinHash.track_abundance MinHash.with_resolution im MinHash.intersection
         MinHash.flatten MinHash.store eqb negb].
  rewrite (bool_decide_eq_true_2 (∅ =@{gmap N N} ∅)) by done.
  cbn [mbind result_mbind result_bind].
  split.
  - intros Hsrc. by rewrite bool_decide_eq_true_2.
  - intros Hsrc. rewrite bool_decide_eq_false_2 by done. cbn [negb].
    eexists. eexists. split; [reflexivity |]. split; [reflexivity |].
    split; [reflexivity |]. split; [| split; [| split]].
    + apply dom_imap_L. intros k. rewrite elem_of_dom. unfold is_Some.
      split; [intros [v Hv]; eauto | intros (v & Hv & _); eauto].
    + exact Hlookup.
    + intros k Hk Habs. by rewrite Hlookup, Habs.
    + intros r [= <-]. split; [reflexivity |].
      intros k Hk Habs. unfold MinHash.hashes at 1.
      cbn [MinHash.track_abundance MinHash.with_resolution MinHash.store].
      by rewrite Hlookup, Habs.
Qed.

Lemma weighted_intersection_policy_holds_witness :
  ∃ im,
    Ok (sketch 0 20 21 false {[ 5 := 1; 100 := 1 ]}) = Ok im
    ∧ MinHash.track_abundance im = false
    ∧ ∃ r, Ok (sketch 0 20 21 true {[ 5 := 9; 100 := 1 ]}) = Ok r
           ∧ MinHash.track_abundance r = true
           ∧ MinHash.hashes r !! 100 = Some 1.
Proof.
  destruct (weighted_intersection_policy_holds _ _ _ _ _ _ _ _
              None {[ 5 := 9 ]} rate10_rate20_threshold)
    as (im & Him & Hflat & _ & Htag).
  exists im. split; [exact Him |]. split; [exact Hflat |].
  destruct (Htag ltac:(vm_compute; discriminate))
    as (abund_mh & abunds & _ & _ & _ & _ & _ & _ & Hres).
  injection Him as <-.
  exists (sketch 0 20 21 true {[ 5 := 9; 100 := 1 ]}).
  destruct (Hres (sketch 0 20 21 true {[ 5 := 9; 100 := 1 ]})
              ltac:(by vm_compute)) as [Htrack Hget].
  split; [reflexivity |]. split; [exact Htrack |].
  apply (Hget 100); by vm_compute.
Defined.

(** * Further properties of the construction protocol *)

Lemma kinds_agree_same_kind m1 m2 :
  kinds_agree m1 m2 = true ↔ same_kind m1 m2.
Proof.
  unfold kinds_agree, same_kind, any, py_and, truthy. cbn [existsb].
  destruct (N.eqb_spec (MinHash.num m1) 0) as [Hn1|Hn1],
    (N.eqb_spec (MinHash.num m2) 0) as [Hn2|Hn2],
    (N.eqb_spec (MinHash.scaled m1) 0) as [Hs1|Hs1],
    (N.eqb_spec (MinHash.scaled m2) 0) as [Hs2|Hs2];
    cbn; rewrite ?Hn1, ?Hs1; cbn;
    repeat match goal with
           | H : ?x ≠ 0 |- context [?x =? 0] =>
               rewrite (proj2 (N.eqb_neq x 0) H)
           | H : ?x = 0 |- context [?x =? 0] =>
               rewrite (proj2 (N.eqb_eq x 0) H)
           end; cbn; split; try done; try tauto; intros _; tauto.
Qed.

(** The engine calls a run of [check_compatibility_and_downsample] adds
    to the record, for each way it can end. *)
Lemma check_cases b tr cn cs :
  let p1 := prepared (ignore_abundance b) (mh1 b) in
  let p2 := prepared (ignore_abundance b) (mh2 b) in
  let fl := flatten_calls (ignore_abundance b) (mh1 b) (mh2 b) in
  let out := check_compatibility_and_downsample cn cs (b, tr) in
  (kinds_agree (mh1 b) (mh2 b) = false
   ∧ out = (Raise (TypeError msg_kind_mismatch), (b, tr)))
  ∨ (kinds_agree (mh1 b) (mh2 b) = true ∧ selector cn cs = None
     ∧ out = (Raise (ValueError msg_no_resolution),
              (normalized b p1 p2, tr ++ fl)))
  ∨ (∃ na sa e,
       kinds_agree (mh1 b) (mh2 b) = true ∧ selector cn cs = Some (na, sa)
       ∧ MinHash.downsample p1 na sa = Raise e
       ∧ out = (Raise e, (normalized b p1 p2,
                          tr ++ fl ++ [CallDownsample p1 na sa])))
  ∨ (∃ na sa d1 e,
       kinds_agree (mh1 b) (mh2 b) = true ∧ selector cn cs = Some (na, sa)
       ∧ MinHash.downsample p1 na sa = Ok d1
       ∧ MinHash.downsample p2 na sa = Raise e
       ∧ out = (Raise e, (normalized b d1 p2,
                          tr ++ fl ++ [CallDownsample p1 na sa;
                                       CallDownsample p2 na sa])))
  ∨ (∃ na sa d1 d2,
       kinds_agree (mh1 b) (mh2 b) = true ∧ selector cn cs = Some (na, sa)
       ∧ MinHash.downsample p1 na sa = Ok d1
       ∧ MinHash.downsample p2 na sa = Ok d2
       ∧ out = (if MinHash.is_compatible d1 d2 then Ok ()
                else Raise (TypeError msg_incompatible),
                (if MinHash.is_compatible d1 d2 then validated b d1 d2
                 else normalized b d1 d2,
                 tr ++ fl ++ [CallDownsample p1 na sa;
                              CallDownsample p2 na sa;
                              CallIsCompatible d1 d2]))).
Proof.
  intros p1 p2 fl out. subst out.
  destruct (kinds_agree (mh1 b) (mh2 b)) eqn:Hk.
  2: { left. by rewrite check_kind_mismatch. }
  right. destruct (selector cn cs) as [[na sa]|] eqn:Hsel.
  2: { left. destruct cs, cn; simplify_eq/=. by rewrite check_no_resolution. }
  right. destruct (MinHash.downsample p1 na sa) as [d1|e] eqn:H1.
  2: { left. exists na, sa, e.
       by rewrite (check_first_downsample_fails _ _ _ _ _ _ _ Hk Hsel H1). }
  right. destruct (MinHash.downsample p2 na sa) as [d2|e] eqn:H2.
  2: { left. exists na, sa, d1, e.
       by rewrite (check_second_downsample_fails _ _ _ _ _ _ _ _ Hk Hsel H1 H2). }
  right. exists na, sa, d1, d2.
  rewrite (check_compatibility_and_downsample_run _ _ _ _ _ _ _ _ Hk Hsel H1 H2).
  cbn zeta. by destruct (MinHash.is_compatible d1 d2).
Qed.

(** X1: the kind test fails, with the object and the record of engine
    calls untouched, exactly when the two sketches have neither both a
    non-zero [num] nor both a non-zero [scaled]; so also for a sketch with
    [num = 0] and [scaled = 0] against any other. *)
Theorem kind_mismatch_iff b tr cn cs :
  check_compatibility_and_downsample cn cs (b, tr)
  = (Raise (TypeError msg_kind_mismatch), (b, tr))
  ↔ ¬ same_kind (mh1 b) (mh2 b).
Proof.
  rewrite <- kinds_agree_same_kind. split.
  - intros Hout Hk.
    destruct (check_cases b tr cn cs)
      as [[Hk' _] | [(_ & _ & Hc) | [(na & sa & e & _ & _ & _ & Hc)
         | [(na & sa & d1 & e & _ & _ & _ & _ & Hc)
           | (na & sa & d1 & d2 & _ & _ & _ & _ & Hc)]]]];
      [congruence | rewrite Hc in Hout ..].
    + discriminate.
    + injection Hout as _ _ Htr. apply (f_equal length) in Htr.
      rewrite !length_app in Htr. cbn in Htr. lia.
    + injection Hout as _ _ Htr. apply (f_equal length) in Htr.
      rewrite !length_app in Htr. cbn in Htr. lia.
    + injection Hout as _ _ Htr. apply (f_equal length) in Htr.
      rewrite !length_app in Htr. cbn in Htr. lia.
  - intros Hk. apply check_kind_mismatch.
    by destruct (kinds_agree (mh1 b) (mh2 b)).
Qed.

(** X2: the failures of [check_compatibility_and_downsample] have a fixed
    precedence: the kind mismatch first, then the missing resolution, then
    the exception of the first [downsample], then that of the second, and
    the incompatibility of the downsampled sketches last. *)
Theorem check_failure_precedence b tr cn cs :
  (check_compatibility_and_downsample cn cs (b, tr)).1 = check_outcome b cn cs.
Proof.
  unfold check_outcome.
  destruct (check_cases b tr cn cs)
    as [[Hk Hc] | [(Hk & Hsel & Hc) | [(na & sa & e & Hk & Hsel & H1 & Hc)
       | [(na & sa & d1 & e & Hk & Hsel & H1 & H2 & Hc)
         | (na & sa & d1 & d2 & Hk & Hsel & H1 & H2 & Hc)]]]];
    rewrite Hc, Hk; cbn [negb fst]; rewrite ?Hsel, ?H1, ?H2; reflexivity.
Qed.

(** X3: no run of [check_compatibility_and_downsample] reassigns [mh1],
    [mh2] or [ignore_abundance], and the record of engine calls only grows;
    [ksize] and [moltype] are assigned, from sketch 1, when the run
    succeeds, and are left as they were when it raises. *)
Theorem check_frame b tr cn cs :
  let out := check_compatibility_and_downsample cn cs (b, tr) in
  mh1 out.2.1 = mh1 b ∧ mh2 out.2.1 = mh2 b
  ∧ ignore_abundance out.2.1 = ignore_abundance b
  ∧ (∃ new, out.2.2 = tr ++ new)
  ∧ if is_ok out.1 then
      ksize out.2.1 = Some (MinHash.ksize (mh1 b))
      ∧ moltype out.2.1 = Some (MinHash.moltype (mh1 b))
    else ksize out.2.1 = ksize b ∧ moltype out.2.1 = moltype b.
Proof.
  cbn zeta.
  destruct (check_cases b tr cn cs)
    as [[Hk Hc] | [(Hk & Hsel & Hc) | [(na & sa & e & Hk & Hsel & H1 & Hc)
       | [(na & sa & d1 & e & Hk & Hsel & H1 & H2 & Hc)
         | (na & sa & d1 & d2 & Hk & Hsel & H1 & H2 & Hc)]]]];
    rewrite Hc; try destruct (MinHash.is_compatible d1 d2); cbn;
    repeat split; try reflexivity; try by eexists.
  exists []. by rewrite app_nil_r.
Qed.

Lemma frac_example_constructed :
  FracMinHashComparison_new rate10 rate20 false None 50 false (95 # 100)
  = Ok frac_example.
Proof. vm_compute. reflexivity. Defined.

Lemma num_example_constructed :
  NumMinHashComparison_new size500 size2 false None = Ok num_example.
Proof. vm_compute. reflexivity. Defined.

(** X4: a failing [downsample] leaves the object partly normalised.  If
    the first one raises, [mh1_cmp] and [mh2_cmp] hold the (flattened)
    originals and no [downsample] of the second sketch is attempted; if the
    second one raises, [mh1_cmp] is already downsampled and [mh2_cmp] is
    not.  The exception is passed on unchanged. *)
Theorem downsample_failure_leaves_partial_state b tr cn cs na sa :
  kinds_agree (mh1 b) (mh2 b) = true →
  selector cn cs = Some (na, sa) →
  let p1 := prepared (ignore_abundance b) (mh1 b) in
  let p2 := prepared (ignore_abundance b) (mh2 b) in
  let fl := flatten_calls (ignore_abundance b) (mh1 b) (mh2 b) in
  let out := check_compatibility_and_downsample cn cs (b, tr) in
  match MinHash.downsample p1 na sa, MinHash.downsample p2 na sa with
  | Raise e, _ =>
      out.1 = Raise e
      ∧ mh1_cmp out.2.1 = Some p1 ∧ mh2_cmp out.2.1 = Some p2
      ∧ out.2.2 = tr ++ fl ++ [CallDownsample p1 na sa]
  | Ok d1, Raise e =>
      out.1 = Raise e
      ∧ mh1_cmp out.2.1 = Some d1 ∧ mh2_cmp out.2.1 = Some p2
      ∧ out.2.2 = tr ++ fl ++ [CallDownsample p1 na sa; CallDownsample p2 na sa]
  | Ok d1, Ok d2 =>
      mh1_cmp out.2.1 = Some d1 ∧ mh2_cmp out.2.1 = Some d2
  end.
Proof.
  intros Hk Hsel p1 p2 fl out. subst out.
  destruct (MinHash.downsample p1 na sa) as [d1|e] eqn:H1.
  - destruct (MinHash.downsample p2 na sa) as [d2|e] eqn:H2.
    + rewrite (check_compatibility_and_downsample_run _ _ _ _ _ _ _ _
                 Hk Hsel H1 H2).
      cbn zeta. by destruct (MinHash.is_compatible d1 d2).
    + by rewrite (check_second_downsample_fails _ _ _ _ _ _ _ _ Hk Hsel H1 H2).
  - by rewrite (check_first_downsample_fails _ _ _ _ _ _ _ Hk Hsel H1).
Qed.

Lemma downsample_failure_leaves_partial_state_witness :
  let out :=
    check_compatibility_and_downsample None (Some 15)
      (BaseMinHashComparison_fields rate10 rate20 false, []) in
  out.1 = Raise (ValueError "new scaled is lower than current sample scaled")
  ∧ mh1_cmp out.2.1
    = Some (sketch 0 15 21 true {[ 5 := 3; 7 := 2; 100 := 4 ]})
  ∧ mh2_cmp out.2.1 = Some rate20.
Proof.
  pose proof (downsample_failure_leaves_partial_state
                (BaseMinHashComparison_fields rate10 rate20 false) []
                None (Some 15) None (Some 15) eq_refl eq_refl) as Hpart.
  vm_compute in Hpart. destruct Hpart as (Hr & H1 & H2 & _).
  split; [exact Hr | split; [exact H1 | exact H2]].
Defined.

(** * Further properties of the constructors *)

Lemma NumMinHashComparison_new_intro m1 m2 ia cn d1 d2 :
  kinds_agree m1 m2 = true →
  MinHash.downsample (prepared ia m1) (Some (resolved_num m1 m2 cn)) None
  = Ok d1 →
  MinHash.downsample (prepared ia m2) (Some (resolved_num m1 m2 cn)) None
  = Ok d2 →
  MinHash.is_compatible d1 d2 = true →
  NumMinHashComparison_new m1 m2 ia cn
  = Ok {| num_base := validated (BaseMinHashComparison_fields m1 m2 ia) d1 d2;
          cmp_num := Some (resolved_num m1 m2 cn) |}.
Proof.
  intros Hk H1 H2 Hc.
  unfold NumMinHashComparison_new. rewrite NumMinHashComparison_init_run.
  cbn zeta.
  rewrite (check_compatibility_and_downsample_run
             (BaseMinHashComparison_fields m1 m2 ia) []
             (Some (resolved_num m1 m2 cn)) None _ _ d1 d2 Hk eq_refl H1 H2).
  cbn zeta. by rewrite Hc.
Qed.

Lemma FracMinHashComparison_new_intro m1 m2 ia cs thr ci conf d1 d2 :
  kinds_agree m1 m2 = true →
  MinHash.downsample (prepared ia m1) None (Some (resolved_scaled m1 m2 cs))
  = Ok d1 →
  MinHash.downsample (prepared ia m2) None (Some (resolved_scaled m1 m2 cs))
  = Ok d2 →
  MinHash.is_compatible d1 d2 = true →
  FracMinHashComparison_new m1 m2 ia cs thr ci conf
  = Ok {| frac_base := validated (BaseMinHashComparison_fields m1 m2 ia) d1 d2;
          cmp_scaled := Some (resolved_scaled m1 m2 cs);
          threshold_bp := thr; estimate_ani_ci := ci;
          ani_confidence := conf |}.
Proof.
  intros Hk H1 H2 Hc.
  unfold FracMinHashComparison_new. rewrite FracMinHashComparison_init_run.
  cbn zeta.
  rewrite (check_compatibility_and_downsample_run
             (BaseMinHashComparison_fields m1 m2 ia) []
             None (Some (resolved_scaled m1 m2 cs)) _ _ d1 d2 Hk eq_refl H1 H2).
  cbn zeta. by rewrite Hc.
Qed.

(** X5: [NumMinHashComparison] is constructed exactly when the kind test
    passes, both (flattened, if abundance is ignored) sketches can be
    downsampled to the resolved [num], and the downsampled sketches are
    compatible; the object returned then holds the arguments, the resolved
    [cmp_num], the two downsampled sketches, and [ksize] and [moltype] of
    sketch 1. *)
Theorem NumMinHashComparison_new_iff m1 m2 ia cn self :
  NumMinHashComparison_new m1 m2 ia cn = Ok self
  ↔ ∃ d1 d2,
      kinds_agree m1 m2 = true
      ∧ MinHash.downsample (prepared ia m1) (Some (resolved_num m1 m2 cn)) None
        = Ok d1
      ∧ MinHash.downsample (prepared ia m2) (Some (resolved_num m1 m2 cn)) None
        = Ok d2
      ∧ MinHash.is_compatible d1 d2 = true
      ∧ self = {| num_base :=
                    {| mh1 := m1; mh2 := m2; ignore_abundance := ia;
                       mh1_cmp := Some d1; mh2_cmp := Some d2;
                       ksize := Some (MinHash.ksize m1);
                       moltype := Some (MinHash.moltype m1) |};
                  cmp_num := Some (resolved_num m1 m2 cn) |}.
Proof.
  split.
  - intros (d1 & d2 & H)%NumMinHashComparison_new_ok. by exists d1, d2.
  - intros (d1 & d2 & Hk & H1 & H2 & Hc & ->).
    by rewrite (NumMinHashComparison_new_intro _ _ _ _ _ _ Hk H1 H2 Hc).
Qed.

(** X6: [FracMinHashComparison] is constructed exactly when the kind test
    passes, both (flattened, if abundance is ignored) sketches can be
    downsampled to the resolved [scaled], and the downsampled sketches are
    compatible; the object returned then holds the arguments as passed
    ([threshold_bp], [estimate_ani_ci] and [ani_confidence] included), the
    resolved [cmp_scaled], the two downsampled sketches, and [ksize] and
    [moltype] of sketch 1. *)
Theorem FracMinHashComparison_new_iff m1 m2 ia cs thr ci conf self :
  FracMinHashComparison_new m1 m2 ia cs thr ci conf = Ok self
  ↔ ∃ d1 d2,
      kinds_agree m1 m2 = true
      ∧ MinHash.downsample (prepared ia m1) None
          (Some (resolved_scaled m1 m2 cs)) = Ok d1
      ∧ MinHash.downsample (prepared ia m2) None
          (Some (resolved_scaled m1 m2 cs)) = Ok d2
      ∧ MinHash.is_compatible d1 d2 = true
      ∧ self = {| frac_base :=
                    {| mh1 := m1; mh2 := m2; ignore_abundance := ia;
                       mh1_cmp := Some d1; mh2_cmp := Some d2;
                       ksize := Some (MinHash.ksize m1);
                       moltype := Some (MinHash.moltype m1) |};
                  cmp_scaled := Some (resolved_scaled m1 m2 cs);
                  threshold_bp := thr; estimate_ani_ci := ci;
                  ani_confidence := conf |}.
Proof.
  split.
  - intros (d1 & d2 & H)%FracMinHashComparison_new_ok. by exists d1, d2.
  - intros (d1 & d2 & Hk & H1 & H2 & Hc & ->).
    by rewrite (FracMinHashComparison_new_intro _ _ _ _ _ _ _ _ _ Hk H1 H2 Hc).
Qed.

Lemma prepared_fields ia m :
  MinHash.num (prepared ia m) = MinHash.num m
  ∧ MinHash.scaled (prepared ia m) = MinHash.scaled m
  ∧ MinHash.ksize (prepared ia m) = MinHash.ksize m
  ∧ MinHash.moltype (prepared ia m) = MinHash.moltype m
  ∧ dom (MinHash.store (prepared ia m)) = dom (MinHash.store m).
Proof.
  unfold prepared. destruct ia; cbn; repeat split. apply dom_fmap_L.
Qed.

Lemma downsample_scaled_ok m s d :
  MinHash.downsample m None (Some s) = Ok d →
  MinHash.num m = 0 ∧ MinHash.scaled m ≤ s
  ∧ MinHash.num d = 0 ∧ MinHash.scaled d = s.
Proof.
  unfold MinHash.downsample, truthy.
  destruct (N.eqb_spec (MinHash.num m) 0); cbn; [| done].
  destruct (N.ltb_spec s (MinHash.scaled m)); [done |].
  by intros [= <-].
Qed.

Lemma downsample_num_ok m n d :
  MinHash.downsample m (Some n) None = Ok d →
  MinHash.scaled m = 0 ∧ n ≤ MinHash.num m
  ∧ MinHash.num d = n ∧ MinHash.scaled d = 0.
Proof.
  unfold MinHash.downsample, truthy.
  destruct (N.eqb_spec (MinHash.scaled m) 0); cbn; [| done].
  destruct (N.ltb_spec (MinHash.num m) n); [done |].
  by intros [= <-].
Qed.

Lemma downsample_scaled_succeeds m s :
  MinHash.num m = 0 → MinHash.scaled m ≤ s →
  ∃ d, MinHash.downsample m None (Some s) = Ok d.
Proof.
  intros Hn Hs. unfold MinHash.downsample, truthy. rewrite Hn. cbn.
  destruct (N.ltb_spec s (MinHash.scaled m)); [lia | by eexists].
Qed.

Lemma downsample_num_succeeds m n :
  MinHash.scaled m = 0 → n ≤ MinHash.num m →
  ∃ d, MinHash.downsample m (Some n) None = Ok d.
Proof.
  intros Hs Hn. unfold MinHash.downsample, truthy. rewrite Hs. cbn.
  destruct (N.ltb_spec (MinHash.num m) n); [lia | by eexists].
Qed.

Lemma is_compatible_iff a b :
  MinHash.is_compatible a b = true
  ↔ MinHash.ksize a = MinHash.ksize b
    ∧ MinHash.moltype a = MinHash.moltype b
    ∧ MinHash.scaled a = MinHash.scaled b.
Proof.
  split; [apply is_compatible_agree |].
  intros (Hk & Hm & Hs). unfold MinHash.is_compatible.
  rewrite Hk, Hs, !N.eqb_refl. by rewrite bool_decide_eq_true_2.
Qed.

Lemma hashes_dom m : dom (MinHash.hashes m) = dom (MinHash.store m).
Proof.
  unfold MinHash.hashes.
  destruct (MinHash.track_abundance m); [done | apply dom_fmap_L].
Qed.

(** X7: a fixed-rate comparison never refines.  Whenever
    [FracMinHashComparison] is constructed, with or without a [cmp_scaled]
    override, the resolved [cmp_scaled] is at least the [scaled] of either
    sketch (an override below it makes [downsample] raise), the two
    normalised sketches have the same [scaled], and they hold no hash the
    originals do not hold. *)
Theorem frac_comparison_never_refines m1 m2 ia cs thr ci conf self :
  FracMinHashComparison_new m1 m2 ia cs thr ci conf = Ok self →
  ∃ s d1 d2,
    cmp_scaled self = Some s ∧ mh1_cmp self = Some d1 ∧ mh2_cmp self = Some d2
    ∧ N.max (MinHash.scaled m1) (MinHash.scaled m2) ≤ s
    ∧ MinHash.scaled d1 = MinHash.scaled d2
    ∧ dom (MinHash.hashes d1) ⊆ dom (MinHash.hashes m1)
    ∧ dom (MinHash.hashes d2) ⊆ dom (MinHash.hashes m2).
Proof.
  intros (d1 & d2 & Hk & H1 & H2 & Hc & ->)%FracMinHashComparison_new_ok.
  exists (resolved_scaled m1 m2 cs), d1, d2.
  apply is_compatible_agree in Hc as (_ & _ & Hsc).
  pose proof (downsample_scaled_ok _ _ _ H1) as (_ & Hs1 & _ & _).
  pose proof (downsample_scaled_ok _ _ _ H2) as (_ & Hs2 & _ & _).
  pose proof (downsample_keeps _ _ _ _ H1) as (_ & _ & _ & Hsub1).
  pose proof (downsample_keeps _ _ _ _ H2) as (_ & _ & _ & Hsub2).
  apply subseteq_dom in Hsub1, Hsub2.
  destruct (prepared_fields ia m1) as (_ & Hps1 & _ & _ & Hpd1).
  destruct (prepared_fields ia m2) as (_ & Hps2 & _ & _ & Hpd2).
  rewrite Hps1 in Hs1. rewrite Hps2 in Hs2.
  rewrite Hpd1 in Hsub1. rewrite Hpd2 in Hsub2.
  rewrite !hashes_dom. repeat split; try done. lia.
Qed.

Lemma frac_comparison_never_refines_witness :
  ∃ s d1 d2,
    cmp_scaled frac_example = Some s
    ∧ mh1_cmp frac_example = Some d1 ∧ mh2_cmp frac_example = Some d2
    ∧ N.max (MinHash.scaled rate10) (MinHash.scaled rate20) ≤ s
    ∧ MinHash.scaled d1 = MinHash.scaled d2
    ∧ dom (MinHash.hashes d1) ⊆ dom (MinHash.hashes rate10)
    ∧ dom (MinHash.hashes d2) ⊆ dom (MinHash.hashes rate20).
Proof.
  exact (frac_comparison_never_refines _ _ _ _ _ _ _ _
           frac_example_constructed).
Defined.

(** X8: a fixed-size comparison never refines.  Whenever
    [NumMinHashComparison] is constructed, with or without a [cmp_num]
    override, the resolved [cmp_num] is at most the [num] of either sketch
    (an override above it makes [downsample] raise), both normalised sketches
    have exactly that [num], and they hold no hash the originals do not
    hold. *)
Theorem num_comparison_never_refines m1 m2 ia cn self :
  NumMinHashComparison_new m1 m2 ia cn = Ok self →
  ∃ n d1 d2,
    cmp_num self = Some n ∧ mh1_cmp self = Some d1 ∧ mh2_cmp self = Some d2
    ∧ n ≤ N.min (MinHash.num m1) (MinHash.num m2)
    ∧ MinHash.num d1 = n ∧ MinHash.num d2 = n
    ∧ dom (MinHash.hashes d1) ⊆ dom (MinHash.hashes m1)
    ∧ dom (MinHash.hashes d2) ⊆ dom (MinHash.hashes m2).
Proof.
  intros (d1 & d2 & Hk & H1 & H2 & _ & ->)%NumMinHashComparison_new_ok.
  exists (resolved_num m1 m2 cn), d1, d2.
  pose proof (downsample_num_ok _ _ _ H1) as (_ & Hn1 & Hd1 & _).
  pose proof (downsample_num_ok _ _ _ H2) as (_ & Hn2 & Hd2 & _).
  pose proof (downsample_keeps _ _ _ _ H1) as (_ & _ & _ & Hsub1).
  pose proof (downsample_keeps _ _ _ _ H2) as (_ & _ & _ & Hsub2).
  apply subseteq_dom in Hsub1, Hsub2.
  destruct (prepared_fields ia m1) as (Hpn1 & _ & _ & _ & Hpd1).
  destruct (prepared_fields ia m2) as (Hpn2 & _ & _ & _ & Hpd2).
  rewrite Hpn1 in Hn1. rewrite Hpn2 in Hn2.
  rewrite Hpd1 in Hsub1. rewrite Hpd2 in Hsub2.
  rewrite !hashes_dom. repeat split; try done. lia.
Qed.

Lemma num_comparison_never_refines_witness :
  ∃ n d1 d2,
    cmp_num num_example = Some n
    ∧ mh1_cmp num_example = Some d1 ∧ mh2_cmp num_example = Some d2
    ∧ n ≤ N.min (MinHash.num size500) (MinHash.num size2)
    ∧ MinHash.num d1 = n ∧ MinHash.num d2 = n
    ∧ dom (MinHash.hashes d1) ⊆ dom (MinHash.hashes size500)
    ∧ dom (MinHash.hashes d2) ⊆ dom (MinHash.hashes size2).
Proof.
  exact (num_comparison_never_refines _ _ _ _ _ num_example_constructed).
Defined.

Lemma fixed_rate_agree m1 m2 :
  fixed_rate m1 → fixed_rate m2 → kinds_agree m1 m2 = true.
Proof.
  intros [Hs1 _] [Hs2 _]. apply kinds_agree_same_kind. by right.
Qed.

Lemma fixed_size_agree m1 m2 :
  fixed_size m1 → fixed_size m2 → kinds_agree m1 m2 = true.
Proof.
  intros [Hn1 _] [Hn2 _]. apply kinds_agree_same_kind. by left.
Qed.

(** X9: for two fixed-rate sketches and no [cmp_scaled] override, the
    default resolution can always be downsampled to: construction succeeds
    when the sketches agree on [ksize] and [moltype], and raises the
    "incompatible sketches" [TypeError] otherwise, whatever their rates. *)
Theorem frac_default_construction m1 m2 ia thr ci conf :
  fixed_rate m1 → fixed_rate m2 →
  (same_identity m1 m2 →
   is_ok (FracMinHashComparison_new m1 m2 ia None thr ci conf) = true)
  ∧ (¬ same_identity m1 m2 →
     FracMinHashComparison_new m1 m2 ia None thr ci conf
     = Raise (TypeError msg_incompatible)).
Proof.
  intros Hr1 Hr2. pose proof (fixed_rate_agree _ _ Hr1 Hr2) as Hk.
  destruct Hr1 as [_ Hn1], Hr2 as [_ Hn2].
  destruct (prepared_fields ia m1) as (Hpn1 & Hps1 & Hpk1 & Hpm1 & _).
  destruct (prepared_fields ia m2) as (Hpn2 & Hps2 & Hpk2 & Hpm2 & _).
  set (s := N.max (MinHash.scaled m1) (MinHash.scaled m2)).
  destruct (downsample_scaled_succeeds (prepared ia m1) s) as [d1 H1];
    [congruence | rewrite Hps1; lia |].
  destruct (downsample_scaled_succeeds (prepared ia m2) s) as [d2 H2];
    [congruence | rewrite Hps2; lia |].
  pose proof (downsample_keeps _ _ _ _ H1) as (_ & Hk1 & Hm1 & _).
  pose proof (downsample_keeps _ _ _ _ H2) as (_ & Hk2 & Hm2 & _).
  pose proof (downsample_scaled_ok _ _ _ H1) as (_ & _ & _ & Hd1).
  pose proof (downsample_scaled_ok _ _ _ H2) as (_ & _ & _ & Hd2).
  assert (Hiff : MinHash.is_compatible d1 d2 = true ↔ same_identity m1 m2).
  { rewrite is_compatible_iff. unfold same_identity.
    rewrite Hk1, Hk2, Hm1, Hm2, Hpk1, Hpk2, Hpm1, Hpm2, Hd1, Hd2. tauto. }
  split.
  - intros Hid%Hiff.
    by rewrite (FracMinHashComparison_new_intro _ _ _ None _ _ _ _ _
                  Hk H1 H2 Hid).
  - intros Hid. unfold FracMinHashComparison_new.
    rewrite FracMinHashComparison_init_run. cbn zeta.
    cbn [resolved_scaled]. fold s.
    rewrite (check_compatibility_and_downsample_run
               (BaseMinHashComparison_fields m1 m2 ia) []
               None (Some s) _ _ d1 d2 Hk eq_refl H1 H2).
    cbn zeta. destruct (MinHash.is_compatible d1 d2); [| done].
    exfalso. by apply Hid, Hiff.
Qed.

Lemma frac_default_construction_witness :
  is_ok (FracMinHashComparison_new rate10 rate20 true None 0 false (95 # 100))
  = true
  ∧ FracMinHashComparison_new rate10_k31 rate20 true None 0 false (95 # 100)
    = Raise (TypeError msg_incompatible).
Proof.
  split.
  - apply (frac_default_construction rate10 rate20 true 0 false (95 # 100));
      split; cbn; (reflexivity || discriminate).
  - apply (frac_default_construction rate10_k31 rate20 true 0 false (95 # 100)).
    + split; cbn; (reflexivity || discriminate).
    + split; cbn; (reflexivity || discriminate).
    + intros [Hks _]. cbn in Hks. discriminate Hks.
Defined.

(** X10: for two fixed-size sketches and no [cmp_num] override, the
    default resolution can always be downsampled to: construction succeeds
    when the sketches agree on [ksize] and [moltype], and raises the
    "incompatible sketches" [TypeError] otherwise, whatever their sample
    counts. *)
Theorem num_default_construction m1 m2 ia :
  fixed_size m1 → fixed_size m2 →
  (same_identity m1 m2 →
   is_ok (NumMinHashComparison_new m1 m2 ia None) = true)
  ∧ (¬ same_identity m1 m2 →
     NumMinHashComparison_new m1 m2 ia None
     = Raise (TypeError msg_incompatible)).
Proof.
  intros Hr1 Hr2. pose proof (fixed_size_agree _ _ Hr1 Hr2) as Hk.
  destruct Hr1 as [_ Hs1], Hr2 as [_ Hs2].
  destruct (prepared_fields ia m1) as (Hpn1 & Hps1 & Hpk1 & Hpm1 & _).
  destruct (prepared_fields ia m2) as (Hpn2 & Hps2 & Hpk2 & Hpm2 & _).
  set (n := N.min (MinHash.num m1) (MinHash.num m2)).
  destruct (downsample_num_succeeds (prepared ia m1) n) as [d1 H1];
    [congruence | rewrite Hpn1; lia |].
  destruct (downsample_num_succeeds (prepared ia m2) n) as [d2 H2];
    [congruence | rewrite Hpn2; lia |].
  pose proof (downsample_keeps _ _ _ _ H1) as (_ & Hk1 & Hm1 & _).
  pose proof (downsample_keeps _ _ _ _ H2) as (_ & Hk2 & Hm2 & _).
  pose proof (downsample_num_ok _ _ _ H1) as (_ & _ & _ & Hd1).
  pose proof (downsample_num_ok _ _ _ H2) as (_ & _ & _ & Hd2).
  assert (Hiff : MinHash.is_compatible d1 d2 = true ↔ same_identity m1 m2).
  { rewrite is_compatible_iff. unfold same_identity.
    rewrite Hk1, Hk2, Hm1, Hm2, Hpk1, Hpk2, Hpm1, Hpm2, Hd1, Hd2. tauto. }
  split.
  - intros Hid%Hiff.
    by rewrite (NumMinHashComparison_new_intro _ _ _ None _ _ Hk H1 H2 Hid).
  - intros Hid. unfold NumMinHashComparison_new.
    rewrite NumMinHashComparison_init_run. cbn zeta.
    cbn [resolved_num]. fold n.
    rewrite (check_compatibility_and_downsample_run
               (BaseMinHashComparison_fields m1 m2 ia) []
               (Some n) None _ _ d1 d2 Hk eq_refl H1 H2).
    cbn zeta. destruct (MinHash.is_compatible d1 d2); [| done].
    exfalso. by apply Hid, Hiff.
Qed.

Lemma num_default_construction_witness :
  is_ok (NumMinHashComparison_new size500 size2 true None) = true.
Proof.
  apply (num_default_construction size500 size2 true);
    split; cbn; (reflexivity || discriminate).
Defined.

(** * Further properties of the derived statistics *)

Lemma kinds_agree_comm m1 m2 : kinds_agree m1 m2 = kinds_agree m2 m1.
Proof.
  apply eq_true_iff_eq. rewrite !kinds_agree_same_kind.
  unfold same_kind. tauto.
Qed.

Lemma is_compatible_comm a b :
  MinHash.is_compatible a b = MinHash.is_compatible b a.
Proof.
  apply eq_true_iff_eq. rewrite !is_compatible_iff.
  split; intros (? & ? & ?); repeat split; done.
Qed.

Lemma flat_intersection_comm (a b : gmap N N) :
  ((λ _, 1) <$> a) ∩ ((λ _, 1) <$> b) = ((λ _, 1) <$> b) ∩ ((λ _, 1) <$> a).
Proof.
  apply map_eq. intros i. rewrite !lookup_intersection, !lookup_fmap.
  by destruct (a !! i), (b !! i).
Qed.

Lemma resolved_scaled_comm m1 m2 cs :
  resolved_scaled m2 m1 cs = resolved_scaled m1 m2 cs.
Proof. destruct cs; cbn; [done | apply N.max_comm]. Qed.

(** X11: a fixed-rate comparison can be built on (mh1, mh2) exactly when
    it can be built on (mh2, mh1).  The swapped comparison has the two
    normalised sketches exchanged and the same [cmp_scaled], [ksize],
    [moltype], intersection sketch, [intersect_bp] and [pass_threshold]; the
    two directional containments are exchanged and their average is the
    same. *)
Theorem frac_comparison_swap m1 m2 ia cs thr ci conf self :
  FracMinHashComparison_new m1 m2 ia cs thr ci conf = Ok self →
  ∃ self',
    FracMinHashComparison_new m2 m1 ia cs thr ci conf = Ok self'
    ∧ mh1_cmp self' = mh2_cmp self ∧ mh2_cmp self' = mh1_cmp self
    ∧ cmp_scaled self' = cmp_scaled self
    ∧ ksize self' = ksize self ∧ moltype self' = moltype self
    ∧ intersect_mh self' = intersect_mh self
    ∧ intersect_bp self' = intersect_bp self
    ∧ pass_threshold self' = pass_threshold self
    ∧ ∀ E : Estimators,
        mh1_containment self' = mh2_containment self
        ∧ mh2_containment self' = mh1_containment self
        ∧ mh1_containment_ani self' = mh2_containment_ani self
        ∧ mh2_containment_ani self' = mh1_containment_ani self
        ∧ ∃ v v', avg_containment self = Ok v
                  ∧ avg_containment self' = Ok v' ∧ (v == v')%Q.
Proof.
  intros (d1 & d2 & Hk & H1 & H2 & Hc & ->)%FracMinHashComparison_new_ok.
  rewrite kinds_agree_comm in Hk.
  rewrite <- (resolved_scaled_comm m1 m2) in H1, H2.
  pose proof Hc as Hc'. rewrite is_compatible_comm in Hc'.
  eexists. split.
  { exact (FracMinHashComparison_new_intro _ _ _ _ thr ci conf _ _
             Hk H2 H1 Hc'). }
  apply is_compatible_agree in Hc as (Hks & Hmt & Hsc).
  pose proof (downsample_keeps _ _ _ _ H1) as (_ & Hk1 & Hm1 & _).
  pose proof (downsample_keeps _ _ _ _ H2) as (_ & Hk2 & Hm2 & _).
  pose proof (downsample_scaled_ok _ _ _ H1) as (_ & _ & Hn1 & _).
  pose proof (downsample_scaled_ok _ _ _ H2) as (_ & _ & Hn2 & _).
  destruct (prepared_fields ia m1) as (_ & _ & Hpk1 & Hpm1 & _).
  destruct (prepared_fields ia m2) as (_ & _ & Hpk2 & Hpm2 & _).
  assert (Him : MinHash.intersection (MinHash.flatten d2) (MinHash.flatten d1)
                = MinHash.intersection (MinHash.flatten d1) (MinHash.flatten d2)).
  { unfold MinHash.intersection, MinHash.with_resolution, MinHash.flatten. cbn.
    by rewrite Hks, Hmt, Hsc, Hn1, Hn2, flat_intersection_comm. }
  assert (Hid : MinHash.ksize m2 = MinHash.ksize m1
                ∧ MinHash.moltype m2 = MinHash.moltype m1)
    by (split; congruence).
  destruct Hid as [Hidk Hidm].
  rewrite resolved_scaled_comm.
  unfold intersect_bp, pass_threshold, intersect_bp, intersect_mh. cbn.
  rewrite Him, Hidk, Hidm.
  repeat split; try reflexivity.
  unfold avg_containment, mh1_containment, mh2_containment. cbn.
  do 2 eexists. repeat split. rewrite !np_mean_pair. field.
Qed.

Lemma frac_comparison_swap_witness :
  ∃ self',
    FracMinHashComparison_new rate20 rate10 false None 50 false (95 # 100)
    = Ok self'
    ∧ mh1_cmp self' = mh2_cmp frac_example
    ∧ mh2_cmp self' = mh1_cmp frac_example
    ∧ intersect_bp self' = intersect_bp frac_example.
Proof.
  destruct (frac_comparison_swap _ _ _ _ _ _ _ _ frac_example_constructed)
    as (self' & Hnew & H1 & H2 & _ & _ & _ & _ & Hbp & _).
  exists self'. split; [exact Hnew |]. split; [exact H1 |].
  split; [exact H2 | exact Hbp].
Defined.

(** X12: [threshold_bp], [estimate_ani_ci] and [ani_confidence] take no
    part in construction: changing them changes neither whether
    construction succeeds nor the normalised sketches, [cmp_scaled] or
    [intersect_bp].  [pass_threshold] is antitone in the threshold: a
    comparison that passes still passes with any lower threshold, and every
    comparison passes a threshold of 0 or less. *)
Theorem threshold_only_matters_to_pass_threshold
    m1 m2 ia cs thr ci conf self thr' ci' conf' :
  FracMinHashComparison_new m1 m2 ia cs thr ci conf = Ok self →
  ∃ self',
    FracMinHashComparison_new m1 m2 ia cs thr' ci' conf' = Ok self'
    ∧ frac_base self' = frac_base self
    ∧ cmp_scaled self' = cmp_scaled self
    ∧ intersect_bp self' = intersect_bp self
    ∧ ((thr' ≤ thr)%Z → pass_threshold self = Ok true →
       pass_threshold self' = Ok true)
    ∧ ((thr' ≤ 0)%Z → pass_threshold self' = Ok true).
Proof.
  intros (d1 & d2 & Hk & H1 & H2 & Hc & ->)%FracMinHashComparison_new_ok.
  eexists. split.
  { exact (FracMinHashComparison_new_intro _ _ _ _ thr' ci' conf' _ _
             Hk H1 H2 Hc). }
  unfold pass_threshold, intersect_bp, intersect_mh. cbn.
  rewrite !Z.geb_leb.
  repeat split.
  - intros Hle [= Hp%Z.leb_le]. f_equal. apply Z.leb_le. lia.
  - intros Hle. f_equal. apply Z.leb_le. lia.
Qed.

Lemma threshold_only_matters_to_pass_threshold_witness :
  ∃ self',
    FracMinHashComparison_new rate10 rate20 false None 40 true (9 # 10)
    = Ok self'
    ∧ frac_base self' = frac_base frac_example
    ∧ intersect_bp self' = intersect_bp frac_example.
Proof.
  destruct (threshold_only_matters_to_pass_threshold
              _ _ _ _ _ _ _ _ 40%Z true (9 # 10) frac_example_constructed)
    as (self' & Hnew & Hbase & _ & Hbp & _).
  exists self'. split; [exact Hnew |]. split; [exact Hbase | exact Hbp].
Defined.

(** X13: on a constructed comparison [angular_similarity] (and so
    [cosine_similarity]) returns a value exactly when abundance is not
    ignored and both original sketches track abundance; in every other case
    it raises the engine's [TypeError]. *)
Theorem angular_similarity_defined_iff `{Estimators}
    (self : BaseMinHashComparison) :
  constructed self →
  let defined :=
    negb (ignore_abundance self)
    && MinHash.track_abundance (mh1 self)
    && MinHash.track_abundance (mh2 self) in
  is_ok (angular_similarity self) = defined
  ∧ cosine_similarity self = angular_similarity self
  ∧ (defined = false →
     angular_similarity self = Raise (TypeError msg_requires_abundance)).
Proof.
  intros (na & sa & d1 & d2 & _ & H1 & H2 & _ & Hc1 & Hc2 & _)%constructed_inv.
  apply downsample_keeps in H1 as (Ht1 & _).
  apply downsample_keeps in H2 as (Ht2 & _).
  unfold cosine_similarity, angular_similarity, MinHash_angular_similarity.
  rewrite Hc1, Hc2. cbn. rewrite Ht1, Ht2. unfold prepared.
  destruct (ignore_abundance self); cbn; [done |].
  destruct (MinHash.track_abundance (mh1 self)),
    (MinHash.track_abundance (mh2 self)); cbn; done.
Qed.

Lemma angular_similarity_defined_iff_witness :
  is_ok (@angular_similarity counting_estimators frac_example) = false
  ∧ @cosine_similarity counting_estimators frac_example
    = @angular_similarity counting_estimators frac_example.
Proof.
  destruct (@angular_similarity_defined_iff counting_estimators frac_example
              (constructed_frac _ _ _ _ _ _ _ _ frac_example_constructed))
    as (Hok & Hcos & _).
  split; [exact Hok | exact Hcos].
Defined.

Lemma frac_sub_originals m1 m2 ia cs thr ci conf self :
  FracMinHashComparison_new m1 m2 ia cs thr ci conf = Ok self →
  ∃ d1 d2,
    mh1_cmp self = Some d1 ∧ mh2_cmp self = Some d2
    ∧ dom (MinHash.hashes d1) ⊆ dom (MinHash.hashes m1)
    ∧ dom (MinHash.hashes d2) ⊆ dom (MinHash.hashes m2).
Proof.
  intros (d1 & d2 & _ & H1 & H2 & _ & ->)%FracMinHashComparison_new_ok.
  exists d1, d2.
  pose proof (downsample_keeps _ _ _ _ H1) as (_ & _ & _ & Hsub1).
  pose proof (downsample_keeps _ _ _ _ H2) as (_ & _ & _ & Hsub2).
  apply subseteq_dom in Hsub1, Hsub2.
  destruct (prepared_fields ia m1) as (_ & _ & _ & _ & Hpd1).
  destruct (prepared_fields ia m2) as (_ & _ & _ & _ & Hpd2).
  rewrite Hpd1 in Hsub1. rewrite Hpd2 in Hsub2.
  by rewrite !hashes_dom.
Qed.

(** X15: when the abundance source is one of the two compared sketches
    and tracks abundance, [weighted_intersection] gives every intersection
    hash the abundance it has in that sketch; the default of 1 is never
    applied, since the intersection holds no hash the original does not
    hold. *)
Theorem weighted_intersection_from_original
    m1 m2 ia cs thr ci conf self m from_abundD :
  FracMinHashComparison_new m1 m2 ia cs thr ci conf = Ok self →
  m = m1 ∨ m = m2 →
  MinHash.track_abundance m = true →
  ∃ im r,
    intersect_mh self = Ok im
    ∧ weighted_intersection self (Some m) from_abundD = Ok r
    ∧ dom (MinHash.hashes r) = dom (MinHash.hashes im)
    ∧ ∀ k, k ∈ dom (MinHash.hashes im) →
           MinHash.hashes r !! k = MinHash.hashes m !! k
           ∧ is_Some (MinHash.hashes m !! k).
Proof.
  intros Hnew Hm Htrack.
  pose proof (frac_sub_originals _ _ _ _ _ _ _ _ Hnew)
    as (d1 & d2 & Hc1 & Hc2 & Hsub1 & Hsub2).
  set (im := MinHash.intersection (MinHash.flatten d1) (MinHash.flatten d2)).
  assert (Hin : ∀ k, k ∈ dom (MinHash.hashes im) →
                     is_Some (MinHash.hashes m !! k)).
  { intros k. rewrite hashes_dom.
    unfold im, MinHash.intersection, MinHash.with_resolution, MinHash.flatten.
    cbn [MinHash.store].
    rewrite dom_intersection_L, !dom_fmap_L, elem_of_intersection.
    intros [Hk1 Hk2]. apply elem_of_dom.
    destruct Hm as [-> | ->]; [apply Hsub1 | apply Hsub2];
      by rewrite hashes_dom. }
  assert (Hrun := weighted_intersection_run self d1 d2 (Some m) from_abundD
                    Hc1 Hc2).
  cbn zeta in Hrun. fold im in Hrun. cbn [chosen_source] in Hrun.
  rewrite Htrack in Hrun.
  exists im. unfold intersect_mh. rewrite Hc1, Hc2. cbn. fold im.
  destruct (bool_decide (MinHash.hashes m = ∅)) eqn:Hempty.
  - apply bool_decide_eq_true in Hempty.
    exists im. split; [done |]. split; [done |]. split; [done |].
    intros k Hk. destruct (Hin k Hk) as [v Hv].
    by rewrite Hempty, lookup_empty in Hv.
  - exists (tagged im (MinHash.hashes m)).
    split; [done |]. split; [done |]. split; [apply tagged_dom |].
    intros k Hk. destruct (Hin k Hk) as [v Hv].
    rewrite tagged_lookup by done. rewrite Hv. eauto.
Qed.

Lemma weighted_intersection_from_original_witness :
  ∃ im r,
    intersect_mh frac_example = Ok im
    ∧ weighted_intersection frac_example (Some rate10) ∅ = Ok r
    ∧ MinHash.hashes r !! 5 = Some 3.
Proof.
  destruct (weighted_intersection_from_original _ _ _ _ _ _ _ _ rate10 ∅
              frac_example_constructed (or_introl eq_refl) eq_refl)
    as (im & r & Him & Hr & _ & Hget).
  exists im, r. split; [exact Him |]. split; [exact Hr |].
  injection Him as <-. exact (proj1 (Hget 5 ltac:(by vm_compute))).
Defined.
